(** * BrainBeacon chat client: a model of [static/js/app.js]

    The script keeps three globals ([currentSessionId], [isWaitingResponse],
    [isComposing]), four page elements, and three asynchronous functions
    ([initializeSession], [handleSend], [handleNewChat]) that suspend at
    [await].  The model below follows the script function by function:

    - JavaScript values coming from the network are JSON values, with
      [undefined] for a missing member;
    - the page is a record of the globals and of the element properties the
      script reads or writes; the children of [chatContainer] are a list of
      rows;
    - a function body is a computation over that record which may throw and
      may suspend on a promise; a suspended computation carries its
      continuation, which the event loop later runs on the state of that
      moment;
    - the Markdown renderer, the sanitizer and layout measurements are
      parameters of the development.

    The model comes first, then the vocabulary of the statements, then the
    lemmas, then one theorem for each property of the chat client's
    specification, C1 to C10, and last further properties of the script, X1
    to X18, with the lemmas they need. *)

From Stdlib Require Import List String Ascii Bool ZArith Lia PeanoNat.
Import ListNotations.
Local Open Scope string_scope.
Local Open Scope list_scope.

Local Set Warnings "-register-all".

(** ** Strings

    A string is the UTF-8 text of the JavaScript string. *)

Module JsString.

Definition code (c : ascii) : N := N_of_ascii c.

(** White space and line terminators of one byte: TAB, LF, VT, FF, CR, SP. *)
Definition ws1 (a : ascii) : bool :=
  let n := code a in
  ((9 <=? n) && (n <=? 13))%N || (n =? 32)%N.

(** U+00A0. *)
Definition ws2 (a b : ascii) : bool :=
  ((code a =? 194) && (code b =? 160))%N.

(** U+1680, U+2000..U+200A, U+2028, U+2029, U+202F, U+205F, U+3000, U+FEFF. *)
Definition ws3 (a b c : ascii) : bool :=
  let x := code a in let y := code b in let z := code c in
  ((x =? 225) && (y =? 154) && (z =? 128))%N
  || ((x =? 226) && (y =? 128)
      && (((128 <=? z) && (z <=? 138)) || (z =? 168) || (z =? 169) || (z =? 175)))%N
  || ((x =? 226) && (y =? 129) && (z =? 159))%N
  || ((x =? 227) && (y =? 128) && (z =? 128))%N
  || ((x =? 239) && (y =? 187) && (z =? 191))%N.

Fixpoint dropStart (s : list ascii) : list ascii :=
  match s with
  | [] => []
  | a :: r1 =>
      if ws1 a then dropStart r1 else
      match r1 with
      | b :: r2 =>
          if ws2 a b then dropStart r2 else
          match r2 with
          | c :: r3 => if ws3 a b c then dropStart r3 else s
          | [] => s
          end
      | [] => s
      end
  end.

(** The same scan on the reversed text: the bytes of a character arrive last
    byte first. *)
Fixpoint dropStartRev (s : list ascii) : list ascii :=
  match s with
  | [] => []
  | a :: r1 =>
      if ws1 a then dropStartRev r1 else
      match r1 with
      | b :: r2 =>
          if ws2 b a then dropStartRev r2 else
          match r2 with
          | c :: r3 => if ws3 c b a then dropStartRev r3 else s
          | [] => s
          end
      | [] => s
      end
  end.

(** [String.prototype.trim]. *)
Definition trim (s : string) : string :=
  string_of_list_ascii
    (rev (dropStartRev (rev (dropStart (list_ascii_of_string s))))).

(** Truthiness of a string: the empty string is the only falsy one. *)
Definition truthy (s : string) : bool := negb (s =? "").

End JsString.

(** ** JavaScript values and completions *)

(** A parsed JSON text.  A number is kept as its literal. *)
Inductive json : Type :=
| JNull
| JBool (b : bool)
| JNum (literal : string)
| JStr (s : string)
| JArr (items : list json)
| JObj (members : list (string * json)).

(** A value a variable of the script may hold: [None] is [undefined]. *)
Definition jsval : Type := option json.

Definition undefined : jsval := None.

(** What a [catch] clause may receive. *)
Inductive exn : Type :=
| Error (message : string)     (* [new Error(message)] *)
| TypeError                    (* a property read on [null] or [undefined] *)
| Reason (text : string).      (* a rejection or an exception raised outside the script *)

(** The completion of an evaluation: a value or a thrown exception; also the
    settlement of a promise: fulfilled or rejected. *)
Inductive res (A : Type) : Type :=
| Val (a : A)
| Exn (e : exn).
Arguments Val {A} a.
Arguments Exn {A} e.

Fixpoint assoc (k : string) (l : list (string * json)) : jsval :=
  match l with
  | [] => None
  | (k', v) :: l' => if k' =? k then Some v else assoc k l'
  end.

(** [data.name] for a parsed JSON value [data] and a name that no prototype
    defines ([session_id], [response]): a member of an object, [undefined] on
    the other values, a [TypeError] on [null]. *)
Definition member (data : json) (name : string) : res jsval :=
  match data with
  | JNull => Exn TypeError
  | JObj ms => Val (assoc name ms)
  | _ => Val undefined
  end.

(** [JSON.stringify] of an object literal whose property values are JSON
    values or [undefined]: a property whose value is [undefined] is left out.
    The text is represented by the value it denotes. *)
Fixpoint stringify_object (props : list (string * jsval)) : list (string * json) :=
  match props with
  | [] => []
  | (k, Some v) :: ps => (k, v) :: stringify_object ps
  | (_, None) :: ps => stringify_object ps
  end.

(** ** The page *)

Inductive role : Type := User | Assistant.

Definition role_name (r : role) : string :=
  match r with User => "user" | Assistant => "assistant" end.

Definition is_user (r : role) : bool :=
  match r with User => true | Assistant => false end.

Record avatar : Type := { img_src : string; img_alt : string }.

(** The [message-content] element of a row. *)
Inductive body : Type :=
| TextContent (text : string)       (* set through [textContent] *)
| InnerHTML (html : string)         (* set through [innerHTML] *)
| Typing (html : string).           (* a [typing-indicator] child *)

Record messageDiv : Type := {
  className : list string;
  id : string;
  avatarOf : avatar;
  messageContent : body
}.

(** A child element of [chatContainer]. *)
Inductive row : Type :=
| WelcomeMessage                    (* the [welcome-message] block *)
| Row (d : messageDiv).

Definition row_classes (r : row) : list string :=
  match r with
  | WelcomeMessage => ["welcome-message"]
  | Row d => className d
  end.

Definition row_id (r : row) : string :=
  match r with
  | WelcomeMessage => ""
  | Row d => id d
  end.

Record response : Type := { ok : bool }.

Record request : Type := {
  url : string;
  method : string;
  headers : list (string * string);
  reqBody : option (list (string * json))
}.

Record state : Type := {
  currentSessionId : jsval;
  isWaitingResponse : bool;
  isComposing : bool;
  inputValue : string;              (* [messageInput.value] *)
  inputHeight : Z;                  (* [messageInput.style.height], in px *)
  sendDisabled : bool;              (* [sendBtn.disabled] *)
  chat : list row;                  (* element children of [chatContainer] *)
  chatScrollTop : Z;                (* value assigned to [chatContainer.scrollTop] *)
  requests : list request;          (* calls of [fetch], oldest first *)
  console : list (string * exn)     (* calls of [console.error], oldest first *)
}.

Definition set_currentSessionId (v : jsval) (s : state) : state :=
  {| currentSessionId := v; isWaitingResponse := isWaitingResponse s;
     isComposing := isComposing s; inputValue := inputValue s;
     inputHeight := inputHeight s; sendDisabled := sendDisabled s;
     chat := chat s; chatScrollTop := chatScrollTop s;
     requests := requests s; console := console s |}.

Definition set_isWaitingResponse (b : bool) (s : state) : state :=
  {| currentSessionId := currentSessionId s; isWaitingResponse := b;
     isComposing := isComposing s; inputValue := inputValue s;
     inputHeight := inputHeight s; sendDisabled := sendDisabled s;
     chat := chat s; chatScrollTop := chatScrollTop s;
     requests := requests s; console := console s |}.

Definition set_isComposing (b : bool) (s : state) : state :=
  {| currentSessionId := currentSessionId s; isWaitingResponse := isWaitingResponse s;
     isComposing := b; inputValue := inputValue s;
     inputHeight := inputHeight s; sendDisabled := sendDisabled s;
     chat := chat s; chatScrollTop := chatScrollTop s;
     requests := requests s; console := console s |}.

Definition set_inputValue (v : string) (s : state) : state :=
  {| currentSessionId := currentSessionId s; isWaitingResponse := isWaitingResponse s;
     isComposing := isComposing s; inputValue := v;
     inputHeight := inputHeight s; sendDisabled := sendDisabled s;
     chat := chat s; chatScrollTop := chatScrollTop s;
     requests := requests s; console := console s |}.

Definition set_inputHeight (h : Z) (s : state) : state :=
  {| currentSessionId := currentSessionId s; isWaitingResponse := isWaitingResponse s;
     isComposing := isComposing s; inputValue := inputValue s;
     inputHeight := h; sendDisabled := sendDisabled s;
     chat := chat s; chatScrollTop := chatScrollTop s;
     requests := requests s; console := console s |}.

Definition set_sendDisabled (b : bool) (s : state) : state :=
  {| currentSessionId := currentSessionId s; isWaitingResponse := isWaitingResponse s;
     isComposing := isComposing s; inputValue := inputValue s;
     inputHeight := inputHeight s; sendDisabled := b;
     chat := chat s; chatScrollTop := chatScrollTop s;
     requests := requests s; console := console s |}.

Definition set_chat (v : list row) (s : state) : state :=
  {| currentSessionId := currentSessionId s; isWaitingResponse := isWaitingResponse s;
     isComposing := isComposing s; inputValue := inputValue s;
     inputHeight := inputHeight s; sendDisabled := sendDisabled s;
     chat := v; chatScrollTop := chatScrollTop s;
     requests := requests s; console := console s |}.

Definition set_chatScrollTop (z : Z) (s : state) : state :=
  {| currentSessionId := currentSessionId s; isWaitingResponse := isWaitingResponse s;
     isComposing := isComposing s; inputValue := inputValue s;
     inputHeight := inputHeight s; sendDisabled := sendDisabled s;
     chat := chat s; chatScrollTop := z;
     requests := requests s; console := console s |}.

Definition log_request (r : request) (s : state) : state :=
  {| currentSessionId := currentSessionId s; isWaitingResponse := isWaitingResponse s;
     isComposing := isComposing s; inputValue := inputValue s;
     inputHeight := inputHeight s; sendDisabled := sendDisabled s;
     chat := chat s; chatScrollTop := chatScrollTop s;
     requests := requests s ++ [r]; console := console s |}.

Definition log_error (label : string) (e : exn) (s : state) : state :=
  {| currentSessionId := currentSessionId s; isWaitingResponse := isWaitingResponse s;
     isComposing := isComposing s; inputValue := inputValue s;
     inputHeight := inputHeight s; sendDisabled := sendDisabled s;
     chat := chat s; chatScrollTop := chatScrollTop s;
     requests := requests s; console := console s ++ [(label, e)] |}.

(** ** What the script takes from its environment

    [window.marked] and [window.DOMPurify] may be missing (the script tests
    them); when present they are functions on strings, [marked.parse] under
    the options of line 3.  What [marked.parse] does with a value that is not
    a string is left open: it may return markup or throw.  [ToString] is the
    string conversion of a value that is neither a string nor [null].  The two
    [scrollHeight] readings depend on layout. *)
Record platform : Type := {
  window_marked : bool;
  window_DOMPurify : bool;
  marked_parse : string -> string;
  marked_parse_other : jsval -> res string;
  DOMPurify_sanitize : string -> string;
  ToString : json -> string;
  input_scrollHeight : string -> Z;
  chat_scrollHeight : list row -> Z
}.

(** ** Computations that may throw and may suspend *)

(** The outcome of running a function body from a state: it finished (with a
    value or an exception), or it is suspended at an [await] on [fetch] or on
    [response.json()], holding the continuation to run, on the state of that
    later moment, with the settlement of the promise. *)
Inductive run (A : Type) : Type :=
| Fin (r : res A) (s : state)
| AwaitFetch (s : state) (k : res response -> state -> run A)
| AwaitJson (s : state) (k : res json -> state -> run A).
Arguments Fin {A} r s.
Arguments AwaitFetch {A} s k.
Arguments AwaitJson {A} s k.

Definition M (A : Type) : Type := state -> run A.

Definition ret {A} (a : A) : M A := fun s => Fin (Val a) s.

Definition throw {A} (e : exn) : M A := fun s => Fin (Exn e) s.

Fixpoint bind_run {A B} (r : run A) (f : A -> M B) : run B :=
  match r with
  | Fin (Val a) s => f a s
  | Fin (Exn e) s => Fin (Exn e) s
  | AwaitFetch s k => AwaitFetch s (fun o s' => bind_run (k o s') f)
  | AwaitJson s k => AwaitJson s (fun o s' => bind_run (k o s') f)
  end.

Definition bind {A B} (m : M A) (f : A -> M B) : M B :=
  fun s => bind_run (m s) f.

(** [try { body } catch (error) { handler error }]. *)
Fixpoint catch_run {A} (r : run A) (handler : exn -> M A) : run A :=
  match r with
  | Fin (Val a) s => Fin (Val a) s
  | Fin (Exn e) s => handler e s
  | AwaitFetch s k => AwaitFetch s (fun o s' => catch_run (k o s') handler)
  | AwaitJson s k => AwaitJson s (fun o s' => catch_run (k o s') handler)
  end.

(** [try { ... } finally { cleanup }]: the cleanup runs on either completion,
    which is then the completion of the whole statement unless the cleanup
    itself throws. *)
Fixpoint finally_run {A} (r : run A) (cleanup : M unit) : run A :=
  match r with
  | Fin c s => bind_run (cleanup s) (fun _ s' => Fin c s')
  | AwaitFetch s k => AwaitFetch s (fun o s' => finally_run (k o s') cleanup)
  | AwaitJson s k => AwaitJson s (fun o s' => finally_run (k o s') cleanup)
  end.

Definition try_catch {A} (body : M A) (handler : exn -> M A) : M A :=
  fun s => catch_run (body s) handler.

Definition try_catch_finally {A} (body : M A) (handler : exn -> M A)
    (cleanup : M unit) : M A :=
  fun s => finally_run (catch_run (body s) handler) cleanup.

Definition get {A} (f : state -> A) : M A := fun s => Fin (Val (f s)) s.

Definition modify (f : state -> state) : M unit := fun s => Fin (Val tt) (f s).

(** The completion of an expression evaluated without the state. *)
Definition lift {A} (c : res A) : M A := fun s => Fin c s.

Declare Scope js_scope.
Delimit Scope js_scope with js.
Notation "x <- m ;; k" := (bind m (fun x => k))
  (at level 61, m at next level, right associativity) : js_scope.
Notation "m ;; k" := (bind m (fun _ => k))
  (at level 61, right associativity) : js_scope.
Local Open Scope js_scope.

(** [await fetch(url, options)]: the call is made, the function suspends, and
    resumes with the response or throws the rejection. *)
Definition fetch (r : request) : M response :=
  fun s => AwaitFetch (log_request r s) (fun o s' => Fin o s').

(** [await response.json()]. *)
Definition response_json (_ : response) : M json :=
  fun s => AwaitJson s (fun o s' => Fin o s').

Definition console_error (label : string) (e : exn) : M unit :=
  modify (log_error label e).

(** ** Looking elements up

    [chatContainer.querySelector('.c')] and [document.getElementById(i)]
    return the first match in document order.  The rows of [chatContainer]
    are searched; the fixed children of a row (avatar, content box, typing
    dots, the welcome block's logo and texts) carry other classes and no id,
    and markup produced by the sanitizer is a leaf of the model.  An element
    is denoted by its position among the rows. *)

Definition has_class (c : string) (r : row) : bool :=
  existsb (String.eqb c) (row_classes r).

Definition has_id (i : string) (r : row) : bool := row_id r =? i.

Fixpoint find_index (p : row -> bool) (l : list row) : option nat :=
  match l with
  | [] => None
  | r :: l' => if p r then Some 0%nat else option_map S (find_index p l')
  end.

Fixpoint remove_nth (n : nat) (l : list row) {struct l} : list row :=
  match l, n with
  | [], _ => []
  | _ :: l', O => l'
  | r :: l', S n' => r :: remove_nth n' l'
  end.

Definition querySelector (c : string) : M (option nat) :=
  get (fun s => find_index (has_class c) (chat s)).

Definition getElementById (i : string) : M (option nat) :=
  get (fun s => find_index (has_id i) (chat s)).

(** [element.remove()]. *)
Definition remove (el : nat) : M unit :=
  modify (fun s => set_chat (remove_nth el (chat s)) s).

(** [chatContainer.appendChild(messageDiv)]. *)
Definition appendChild (d : messageDiv) : M unit :=
  modify (fun s => set_chat (chat s ++ [Row d]) s).

(** ** The script *)

Section Script.

Variable P : platform.

Import JsString.

(** Line 7 to 9. *)
Definition initial_currentSessionId : jsval := Some (JStr "default").
Definition initial_isWaitingResponse : bool := false.
Definition initial_isComposing : bool := false.

Definition new_session_request : request :=
  {| url := "/api/new_session";
     method := "POST";
     headers := [("Content-Type", "application/json")];
     reqBody := None |}.

Definition chat_request (message : string) (session_id : jsval) : request :=
  {| url := "/api/chat";
     method := "POST";
     headers := [("Content-Type", "application/json")];
     reqBody := Some (stringify_object
                        [("message", Some (JStr message));
                         ("session_id", session_id)]) |}.

Definition initializeSession : M unit :=
  try_catch
    (response <- fetch new_session_request ;;
     data <- response_json response ;;
     session_id <- lift (member data "session_id") ;;
     modify (set_currentSessionId session_id))
    (fun error => console_error "初始化会话失败:" error).

Definition adjustTextareaHeight : M unit :=
  modify (fun s =>
    set_inputHeight (Z.min (input_scrollHeight P (inputValue s)) 200) s).

Definition updateSendButton : M unit :=
  modify (fun s =>
    let hasText := (0 <? String.length (trim (inputValue s)))%nat in
    set_sendDisabled (negb hasText || isWaitingResponse s) s).

Definition createAvatar (r : role) : avatar :=
  {| img_src := if is_user r then "/static/img/user_avatar.png"
                else "/static/img/logo.svg";
     img_alt := if is_user r then "用户头像" else "BrainBeacon 标识" |}.

(** [marked.parse(content)]. *)
Definition marked_parse_value (content : jsval) : res string :=
  match content with
  | Some (JStr s) => Val (marked_parse P s)
  | v => marked_parse_other P v
  end.

(** The text a [textContent] assignment stores: the string itself, the
    empty string for [null] and [undefined], the string conversion of
    anything else. *)
Definition textContent_of (content : jsval) : string :=
  match content with
  | None => ""
  | Some JNull => ""
  | Some (JStr s) => s
  | Some v => ToString P v
  end.

Definition scrollToBottom : M unit :=
  modify (fun s => set_chatScrollTop (chat_scrollHeight P (chat s)) s).

Definition addMessage (r : role) (content : jsval) : M unit :=
  let avatar := createAvatar r in
  messageContent <-
    (if negb (is_user r) && window_marked P && window_DOMPurify P then
       html <- lift (marked_parse_value content) ;;
       ret (InnerHTML (DOMPurify_sanitize P html))
     else
       ret (TextContent (textContent_of content))) ;;
  appendChild {| className := ["message"; role_name r];
                 id := "";
                 avatarOf := avatar;
                 messageContent := messageContent |} ;;
  scrollToBottom.

Definition loading_row : messageDiv :=
  {| className := ["message"; "assistant"];
     id := "loading-indicator";
     avatarOf := createAvatar Assistant;
     messageContent := Typing "<span></span><span></span><span></span>" |}.

Definition addLoadingIndicator : M string :=
  appendChild loading_row ;;
  scrollToBottom ;;
  ret "loading-indicator".

Definition removeLoadingIndicator (i : string) : M unit :=
  indicator <- getElementById i ;;
  match indicator with
  | Some el => remove el
  | None => ret tt
  end.

Definition apology : string := "抱歉，发生了错误。请稍后重试。".

Definition handleSend : M unit :=
  value <- get inputValue ;;
  let message := trim value in
  waiting <- get isWaitingResponse ;;
  if negb (truthy message) || waiting then ret tt else
  modify (set_inputValue "") ;;
  adjustTextareaHeight ;;
  updateSendButton ;;
  welcomeMsg <- querySelector "welcome-message" ;;
  match welcomeMsg with
  | Some el => remove el
  | None => ret tt
  end ;;
  addMessage User (Some (JStr message)) ;;
  loadingId <- addLoadingIndicator ;;
  modify (set_isWaitingResponse true) ;;
  updateSendButton ;;
  try_catch_finally
    (session_id <- get currentSessionId ;;
     response <- fetch (chat_request message session_id) ;;
     if negb (ok response) then throw (Error "请求失败") else
     data <- response_json response ;;
     removeLoadingIndicator loadingId ;;
     reply <- lift (member data "response") ;;
     addMessage Assistant reply)
    (fun error =>
       console_error "发送消息失败:" error ;;
       removeLoadingIndicator loadingId ;;
       addMessage Assistant (Some (JStr apology)))
    (modify (set_isWaitingResponse false) ;;
     updateSendButton).

Definition handleNewChat : M unit :=
  modify (set_chat [WelcomeMessage]) ;;
  try_catch
    (response <- fetch new_session_request ;;
     data <- response_json response ;;
     session_id <- lift (member data "session_id") ;;
     modify (set_currentSessionId session_id))
    (fun error => console_error "创建新会话失败:" error).

End Script.

(** ** The event loop

    Handlers run one at a time.  A call of an asynchronous function runs it to
    its first [await]; the suspended rest waits among the tasks until the
    promise settles, and then runs on the page as it is at that moment. *)

Inductive origin : Type :=
| InitializeSession
| HandleSend
| HandleNewChat
| Listener.

Inductive awaiting : Type :=
| OnFetch (k : res response -> state -> run unit)
| OnJson (k : res json -> state -> run unit).

Record task : Type := { origin_of : origin; awaits : awaiting }.

Record world : Type := { page : state; tasks : list task }.

(** Where a run leaves the world: a completion (an exception of an
    asynchronous function rejects its promise, which nobody awaits) or one
    more task. *)
Definition land (o : origin) (r : run unit) (ts : list task) : world :=
  match r with
  | Fin _ s => {| page := s; tasks := ts |}
  | AwaitFetch s k =>
      {| page := s; tasks := ts ++ [{| origin_of := o; awaits := OnFetch k |}] |}
  | AwaitJson s k =>
      {| page := s; tasks := ts ++ [{| origin_of := o; awaits := OnJson k |}] |}
  end.

Definition call (o : origin) (f : M unit) (w : world) : world :=
  land o (f (page w)) (tasks w).

Fixpoint drop_nth {A} (n : nat) (l : list A) {struct l} : list A :=
  match l, n with
  | [], _ => []
  | _ :: l', O => l'
  | a :: l', S n' => a :: drop_nth n' l'
  end.

Inductive event : Type :=
| Click_sendBtn
| Click_newChatBtn
| InputEvent (value : string)       (* the user edited the text to [value] *)
| CompositionStart
| CompositionEnd
| Keydown (key : string) (shiftKey : bool)
| FetchSettled (i : nat) (o : res response)
| JsonSettled (i : nat) (o : res json).

Section Loop.

Variable P : platform.

Import JsString.

(** Line 58 to 65. *)
Definition onKeydown (key : string) (shiftKey : bool) : M unit :=
  composing <- get isComposing ;;
  if (key =? "Enter") && negb shiftKey && negb composing then
    waiting <- get isWaitingResponse ;;
    value <- get inputValue ;;
    if negb waiting && truthy (trim value) then handleSend P else ret tt
  else ret tt.

(** Line 46 to 49, after the browser has stored the edited text. *)
Definition onInput (value : string) : M unit :=
  modify (set_inputValue value) ;;
  adjustTextareaHeight P ;;
  updateSendButton.

Definition onCompositionEnd : M unit :=
  modify (set_isComposing false) ;;
  updateSendButton.

Definition step (e : event) (w : world) : world :=
  match e with
  | Click_sendBtn =>
      (* a disabled button dispatches no click *)
      if sendDisabled (page w) then w else call HandleSend (handleSend P) w
  | Click_newChatBtn => call HandleNewChat handleNewChat w
  | InputEvent v => call Listener (onInput v) w
  | CompositionStart => call Listener (modify (set_isComposing true)) w
  | CompositionEnd => call Listener onCompositionEnd w
  | Keydown key shiftKey => call HandleSend (onKeydown key shiftKey) w
  | FetchSettled i o =>
      match nth_error (tasks w) i with
      | Some {| origin_of := f; awaits := OnFetch k |} =>
          land f (k o (page w)) (drop_nth i (tasks w))
      | _ => w
      end
  | JsonSettled i o =>
      match nth_error (tasks w) i with
      | Some {| origin_of := f; awaits := OnJson k |} =>
          land f (k o (page w)) (drop_nth i (tasks w))
      | _ => w
      end
  end.

Definition steps (es : list event) (w : world) : world :=
  fold_left (fun w e => step e w) es w.

(** The page as the document delivers it, before the script has run. *)
Definition loaded (chat0 : list row) (value0 : string) (disabled0 : bool)
    (height0 scrollTop0 : Z) : state :=
  {| currentSessionId := initial_currentSessionId;
     isWaitingResponse := initial_isWaitingResponse;
     isComposing := initial_isComposing;
     inputValue := value0; inputHeight := height0;
     sendDisabled := disabled0;
     chat := chat0; chatScrollTop := scrollTop0;
     requests := []; console := [] |}.

(** Line 18 to 22: [DOMContentLoaded]. *)
Definition boot (s0 : state) : world :=
  call Listener (adjustTextareaHeight P)
    (call InitializeSession initializeSession
       {| page := s0; tasks := [] |}).

Inductive reachable (w0 : world) : world -> Prop :=
| reach_start : reachable w0 w0
| reach_step w e : reachable w0 w -> reachable w0 (step e w).

End Loop.

(** * Vocabulary of the statements *)

Import JsString.

(** ** Rows *)

Definition is_welcome : row -> bool := has_class "welcome-message".

Definition is_indicator : row -> bool := has_id "loading-indicator".

(** The list after [querySelector]/[getElementById] followed by [remove()] on
    a hit. *)
Definition remove_first (p : row -> bool) (l : list row) : list row :=
  match find_index p l with
  | Some n => remove_nth n l
  | None => l
  end.

Definition count (p : row -> bool) (l : list row) : nat :=
  List.length (filter p l).

(** The row [addMessage('user', m)] appends. *)
Definition user_row (m : string) : row :=
  Row {| className := ["message"; "user"]; id := "";
         avatarOf := createAvatar User;
         messageContent := TextContent m |}.

(** The row [addMessage('assistant', ...)] appends, up to its content. *)
Definition assistant_row (b : body) : row :=
  Row {| className := ["message"; "assistant"]; id := "";
         avatarOf := createAvatar Assistant;
         messageContent := b |}.

(** The content [addMessage] gives an assistant row for a string. *)
Definition render (P : platform) (content : string) : body :=
  if window_marked P && window_DOMPurify P
  then InnerHTML (DOMPurify_sanitize P (marked_parse P content))
  else TextContent content.

(** The content for any value, when building it does not throw. *)
Definition render_value (P : platform) (content : jsval) : res body :=
  if window_marked P && window_DOMPurify P
  then match marked_parse_value P content with
       | Val html => Val (InnerHTML (DOMPurify_sanitize P html))
       | Exn e => Exn e
       end
  else Val (TextContent (textContent_of P content)).

(** Markup reaches a row only out of the sanitizer; the typing dots are the
    script's own literal. *)
Definition safe_body (P : platform) (b : body) : Prop :=
  match b with
  | TextContent _ => True
  | InnerHTML html => exists dirty, html = DOMPurify_sanitize P dirty
  | Typing html => html = "<span></span><span></span><span></span>"
  end.

Definition safe_row (P : platform) (r : row) : Prop :=
  match r with
  | WelcomeMessage => True
  | Row d => safe_body P (messageContent d)
  end.

(** ** The suspended parts of the three functions

    The continuation a function suspends with does not depend on the state it
    was called in: it is read off one run and shown further down to be the one
    of every run. *)

Definition fetch_cont (r : run unit) : res response -> state -> run unit :=
  match r with
  | AwaitFetch _ k => k
  | _ => fun _ s => Fin (Val tt) s
  end.

Definition json_cont (r : run unit) : res json -> state -> run unit :=
  match r with
  | AwaitJson _ k => k
  | _ => fun _ s => Fin (Val tt) s
  end.

(** Two pages to run the functions on: an empty one, and one on which
    [handleSend] proceeds. *)
Definition blank : state := loaded [] "" false 0 0.

Definition typed : state := loaded [] "x" false 0 0.

Definition init_on_fetch : res response -> state -> run unit :=
  fetch_cont (initializeSession blank).

Definition init_on_json : res json -> state -> run unit :=
  json_cont (init_on_fetch (Val {| ok := true |}) blank).

Definition newchat_on_fetch : res response -> state -> run unit :=
  fetch_cont (handleNewChat blank).

Definition newchat_on_json : res json -> state -> run unit :=
  json_cont (newchat_on_fetch (Val {| ok := true |}) blank).

(** The page after the assignment of line 34 or 242, or after the [catch]
    clause, for a settled body. *)
Definition session_result (label : string) (o : res json) (s : state) : state :=
  match o with
  | Exn e => log_error label e s
  | Val data =>
      match member data "session_id" with
      | Val v => set_currentSessionId v s
      | Exn e => log_error label e s
      end
  end.

(** The page after a session request, for its two settlements: the status of
    the response plays no part. *)
Definition session_outcome (label : string) (o1 : res response) (o2 : res json)
    (s : state) : state :=
  match o1 with
  | Val _ => session_result label o2 s
  | Exn e => log_error label e s
  end.

(** ** Tasks, events and pages *)

(** The label of the [console.error] call of each function. *)
Definition label_of (f : origin) : string :=
  match f with
  | InitializeSession => "初始化会话失败:"
  | HandleNewChat => "创建新会话失败:"
  | _ => "发送消息失败:"
  end.

(** The two functions that request a session. *)
Definition is_session (f : origin) : bool :=
  match f with
  | InitializeSession | HandleNewChat => true
  | _ => false
  end.

Definition is_send (t : task) : bool :=
  match origin_of t with HandleSend => true | _ => false end.

(** The requests of [handleSend] that are in flight. *)
Definition pending_sends (w : world) : nat :=
  List.length (filter is_send (tasks w)).

(** Two pages that differ at most in the input field, the send button and
    [isComposing]. *)
Record same_exchange (s s' : state) : Prop := {
  same_session : currentSessionId s' = currentSessionId s;
  same_waiting : isWaitingResponse s' = isWaitingResponse s;
  same_chat : chat s' = chat s;
  same_requests : requests s' = requests s;
  same_console : console s' = console s
}.
Arguments same_session {s s'} _.
Arguments same_waiting {s s'} _.
Arguments same_chat {s s'} _.
Arguments same_requests {s s'} _.
Arguments same_console {s s'} _.

(** The request was rejected or answered with a status outside 2xx. *)
Definition fetch_failed (o : res response) : bool :=
  match o with
  | Val r => negb (ok r)
  | Exn _ => true
  end.

Definition flag (b : bool) : nat := if b then 1%nat else 0%nat.


Definition is_null (data : json) : bool :=
  match data with
  | JNull => true
  | _ => false
  end.

Section Vocabulary.

Variable P : platform.

(** What [handleSend] resumes with after [fetch] and after
    [response.json()]. *)
Definition send_on_fetch : res response -> state -> run unit :=
  fetch_cont (handleSend P typed).

Definition send_on_json : res json -> state -> run unit :=
  json_cont (send_on_fetch (Val {| ok := true |}) blank).

(** The page when [handleSend] suspends at its [fetch], for the trimmed text
    [m] of the input field. *)
Definition started (m : string) (s : state) : state :=
  let rows := remove_first is_welcome (chat s) ++ [user_row m; Row loading_row] in
  {| currentSessionId := currentSessionId s;
     isWaitingResponse := true;
     isComposing := isComposing s;
     inputValue := "";
     inputHeight := Z.min (input_scrollHeight P "") 200;
     sendDisabled := true;
     chat := rows;
     chatScrollTop := chat_scrollHeight P rows;
     requests := requests s ++ [chat_request m (currentSessionId s)];
     console := console s |}.

(** The page after the indicator is looked up and removed, an assistant row
    with content [b] is appended, and the [finally] clause has run. *)
Definition answered (b : body) (s : state) : state :=
  let rows := remove_first is_indicator (chat s) ++ [assistant_row b] in
  {| currentSessionId := currentSessionId s;
     isWaitingResponse := false;
     isComposing := isComposing s;
     inputValue := inputValue s;
     inputHeight := inputHeight s;
     sendDisabled := negb (0 <? String.length (trim (inputValue s)))%nat || false;
     chat := rows;
     chatScrollTop := chat_scrollHeight P rows;
     requests := requests s;
     console := console s |}.

(** The page after the [catch] clause and the [finally] clause. *)
Definition failed (e : exn) (s : state) : state :=
  answered (render P apology) (log_error "发送消息失败:" e s).

(** The page after line 143. *)
Definition indicator_removed (s : state) : state :=
  set_chat (remove_first is_indicator (chat s)) s.

(** The page when [handleSend] completes, for a settled body. *)
Definition send_result (o : res json) (s : state) : state :=
  match o with
  | Exn e => failed e s
  | Val data =>
      match member data "response" with
      | Exn e => failed e (indicator_removed s)
      | Val reply =>
          match render_value P reply with
          | Val b => answered b s
          | Exn e => failed e (indicator_removed s)
          end
      end
  end.

(** The task a function leaves at its first and at its second [await]. *)
Definition fetch_task (f : origin) : task :=
  {| origin_of := f;
     awaits := OnFetch match f with
                       | InitializeSession => init_on_fetch
                       | HandleNewChat => newchat_on_fetch
                       | _ => send_on_fetch
                       end |}.

Definition json_task (f : origin) : task :=
  {| origin_of := f;
     awaits := OnJson match f with
                      | InitializeSession => init_on_json
                      | HandleNewChat => newchat_on_json
                      | _ => send_on_json
                      end |}.

(** The content of the assistant row [handleSend] ends with when the body of
    a 2xx response settles as [o]. *)
Definition reply_body (o : res json) : body :=
  match o with
  | Exn _ => render P apology
  | Val data =>
      match member data "response" with
      | Exn _ => render P apology
      | Val reply =>
          match render_value P reply with
          | Val b => b
          | Exn _ => render P apology
          end
      end
  end.

End Vocabulary.

(** ** Every step of the event loop, listed

    As long as the tasks are suspensions of the three functions, a step is
    one of the following changes. *)

(** The task is a suspension of one of the three functions. *)
Definition genuine (P : platform) (t : task) : Prop :=
  origin_of t <> Listener
  /\ (t = fetch_task P (origin_of t) \/ t = json_task P (origin_of t)).

Inductive effect (P : platform) (w : world) : event -> world -> Prop :=
| eff_none e : effect P w e w
| eff_ui e s :
    same_exchange (page w) s ->
    effect P w e {| page := s; tasks := tasks w |}
| eff_send e :
    trim (inputValue (page w)) <> "" ->
    isWaitingResponse (page w) = false ->
    effect P w e
      {| page := started P (trim (inputValue (page w))) (page w);
         tasks := tasks w ++ [fetch_task P HandleSend] |}
| eff_reset :
    effect P w Click_newChatBtn
      {| page := log_request new_session_request
                   (set_chat [WelcomeMessage] (page w));
         tasks := tasks w ++ [fetch_task P HandleNewChat] |}
| eff_session_fetch i f o :
    is_session f = true ->
    nth_error (tasks w) i = Some (fetch_task P f) ->
    effect P w (FetchSettled i o)
      match o with
      | Val _ => {| page := page w;
                    tasks := drop_nth i (tasks w) ++ [json_task P f] |}
      | Exn e => {| page := log_error (label_of f) e (page w);
                    tasks := drop_nth i (tasks w) |}
      end
| eff_session_json i f o :
    is_session f = true ->
    nth_error (tasks w) i = Some (json_task P f) ->
    effect P w (JsonSettled i o)
      {| page := session_result (label_of f) o (page w);
         tasks := drop_nth i (tasks w) |}
| eff_send_fetch i o :
    nth_error (tasks w) i = Some (fetch_task P HandleSend) ->
    effect P w (FetchSettled i o)
      match o with
      | Val r =>
          if ok r
          then {| page := page w;
                  tasks := drop_nth i (tasks w) ++ [json_task P HandleSend] |}
          else {| page := failed P (Error "请求失败") (page w);
                  tasks := drop_nth i (tasks w) |}
      | Exn e => {| page := failed P e (page w); tasks := drop_nth i (tasks w) |}
      end
| eff_send_json i o :
    nth_error (tasks w) i = Some (json_task P HandleSend) ->
    effect P w (JsonSettled i o)
      {| page := send_result P o (page w); tasks := drop_nth i (tasks w) |}.

(** ** Exchanges *)


(** The event settles the promise a call of [handleSend] is suspended on. *)
Definition settles_send (e : event) (w : world) : bool :=
  match e with
  | FetchSettled i _ =>
      match nth_error (tasks w) i with
      | Some {| origin_of := HandleSend; awaits := OnFetch _ |} => true
      | _ => false
      end
  | JsonSettled i _ =>
      match nth_error (tasks w) i with
      | Some {| origin_of := HandleSend; awaits := OnJson _ |} => true
      | _ => false
      end
  | _ => false
  end.


(** ** Invariants *)

(** The indicator is in the view at most once, and only while a send is
    pending. *)
Definition indicator_ok (w : world) : Prop :=
  (count is_indicator (chat (page w)) <= flag (isWaitingResponse (page w)))%nat.

(** The busy flag counts the requests of [handleSend] in flight. *)
Definition one_send (w : world) : Prop :=
  pending_sends w = flag (isWaitingResponse (page w)).


(** What the rows keep from the document: the welcome block is there at most
    once; markup comes out of the sanitizer. *)
Record rows_ok (P : platform) (w : world) : Prop := {
  one_welcome : (count is_welcome (chat (page w)) <= 1)%nat;
  all_safe : Forall (safe_row P) (chat (page w))
}.


(** ** Sessions *)

(** The world after the two settlements of a session request that waits at
    position [n]. *)
Definition settle_session (P : platform) (n : nat) (o1 : res response)
    (o2 : res json) (w : world) : world :=
  steps P [FetchSettled n o1; JsonSettled n o2] w.

(** The body of a session response arrives at this event and parses to
    something other than [null]: the assignment of line 34 or 242 runs.  No
    session request completes with success without it. *)
Definition session_body_arrives (e : event) (w : world) : bool :=
  match e with
  | JsonSettled i (Val data) =>
      match nth_error (tasks w) i with
      | Some {| origin_of := f; awaits := OnJson _ |} =>
          is_session f && negb (is_null data)
      | _ => false
      end
  | _ => false
  end.


(** ** The controls and the rows, step by step *)

(** The page after the listener of line 46 to 49 has run on the edited
    text. *)
Definition edited (P : platform) (v : string) (s : state) : state :=
  set_sendDisabled (negb (0 <? String.length (trim v))%nat || isWaitingResponse s)
    (set_inputHeight (Z.min (input_scrollHeight P v) 200) (set_inputValue v s)).

(** The page after [updateSendButton]. *)
Definition button_updated (s : state) : state :=
  set_sendDisabled
    (negb (0 <? String.length (trim (inputValue s)))%nat || isWaitingResponse s) s.

(** Every change a step makes to the page, all fields included.  The event
    is kept where the change belongs to one event only. *)
Inductive change (P : platform) (s : state) : event -> state -> Prop :=
| ch_none e : change P s e s
| ch_input v : change P s (InputEvent v) (edited P v s)
| ch_composition_start : change P s CompositionStart (set_isComposing true s)
| ch_composition_end :
    change P s CompositionEnd (button_updated (set_isComposing false s))
| ch_send e :
    trim (inputValue s) <> "" -> isWaitingResponse s = false ->
    e <> CompositionStart -> e <> CompositionEnd ->
    change P s e (started P (trim (inputValue s)) s)
| ch_reset :
    change P s Click_newChatBtn
      (log_request new_session_request (set_chat [WelcomeMessage] s))
| ch_session_rejected i f x :
    is_session f = true ->
    change P s (FetchSettled i (Exn x)) (log_error (label_of f) x s)
| ch_session_body i f o :
    is_session f = true ->
    change P s (JsonSettled i o) (session_result (label_of f) o s)
| ch_send_failed i o x :
    fetch_failed o = true ->
    change P s (FetchSettled i o) (failed P x s)
| ch_send_body i o : change P s (JsonSettled i o) (send_result P o s).

(** The send button shows what line 79 and 80 compute from the text and the
    busy flag. *)
Definition button_ok (s : state) : Prop :=
  sendDisabled s
  = negb (0 <? String.length (trim (inputValue s)))%nat || isWaitingResponse s.

(** The height of the input field is the one line 74 computes from its
    text. *)
Definition height_ok (P : platform) (s : state) : Prop :=
  inputHeight s = Z.min (input_scrollHeight P (inputValue s)) 200.

(** A row as the script builds it: the welcome block of the new-chat
    template, a user row holding a trimmed, non-empty text as text, an
    assistant row holding text or sanitized markup, or the indicator. *)
Definition script_row (P : platform) (r : row) : Prop :=
  r = WelcomeMessage
  \/ (exists m, r = user_row m /\ m <> "" /\ trim m = m)
  \/ (exists b, r = assistant_row b /\ safe_body P b)
  \/ r = Row loading_row.

(** A request as the script sends it: the one for a session, or a chat
    request whose message is trimmed and not empty. *)
Definition script_request (r : request) : Prop :=
  r = new_session_request
  \/ exists m sid, r = chat_request m sid /\ m <> "" /\ trim m = m.

(** The text starts with white space, as [trim] scans it. *)
Definition starts_ws (l : list ascii) : bool :=
  match l with
  | [] => false
  | a :: r1 =>
      ws1 a
      || match r1 with
         | [] => false
         | b :: r2 =>
             ws2 a b
             || match r2 with
                | [] => false
                | c :: _ => ws3 a b c
                end
         end
  end.

(** The same for the reversed text. *)
Definition ends_ws (l : list ascii) : bool :=
  match l with
  | [] => false
  | a :: r1 =>
      ws1 a
      || match r1 with
         | [] => false
         | b :: r2 =>
             ws2 b a
             || match r2 with
                | [] => false
                | c :: _ => ws3 c b a
                end
         end
  end.

(** The event settles a promise that [initializeSession] or [handleNewChat]
    is suspended on. *)
Definition settles_session (e : event) (w : world) : bool :=
  match e with
  | FetchSettled i _ =>
      match nth_error (tasks w) i with
      | Some {| origin_of := f; awaits := OnFetch _ |} => is_session f
      | _ => false
      end
  | JsonSettled i _ =>
      match nth_error (tasks w) i with
      | Some {| origin_of := f; awaits := OnJson _ |} => is_session f
      | _ => false
      end
  | _ => false
  end.





(** What the [catch] clause of [initializeSession] or [handleNewChat]
    receives when the event settles its promise: the rejection of the request
    or of the body, or the [TypeError] of [data.session_id] on [null].  A
    response of any status and any other body are no failure to them. *)
Definition session_failure (e : event) : option exn :=
  match e with
  | FetchSettled _ (Exn x) => Some x
  | JsonSettled _ (Exn x) => Some x
  | JsonSettled _ (Val JNull) => Some TypeError
  | _ => None
  end.

(** The listener of line 58 to 65 calls [preventDefault]: the key is Enter
    without Shift outside a composition, whether or not a message is
    sent. *)
Definition keydown_prevented (key : string) (shiftKey : bool) (s : state) : bool :=
  (key =? "Enter") && negb shiftKey && negb (isComposing s).

(** ** A concrete page for the examples *)

(** Both libraries present; a stand-in renderer that wraps a paragraph and a
    stand-in sanitizer that finds nothing to remove. *)
Definition demo : platform :=
  {| window_marked := true;
     window_DOMPurify := true;
     marked_parse := fun s => ("<p>" ++ s ++ "</p>")%string;
     marked_parse_other := fun _ => Exn (Reason "marked(): input parameter is undefined or null");
     DOMPurify_sanitize := fun s => s;
     ToString := fun _ => "[object Object]";
     input_scrollHeight := fun _ => 24%Z;
     chat_scrollHeight := fun l => (Z.of_nat (List.length l) * 60)%Z |}.

(** The same page with an input field that grows by a line of 24 pixels for
    every eight characters. *)
Definition growing : platform :=
  {| window_marked := true;
     window_DOMPurify := true;
     marked_parse := fun s => ("<p>" ++ s ++ "</p>")%string;
     marked_parse_other := fun _ => Exn (Reason "marked(): input parameter is undefined or null");
     DOMPurify_sanitize := fun s => s;
     ToString := fun _ => "[object Object]";
     input_scrollHeight := fun v => (24 * (1 + Z.of_nat (String.length v) / 8))%Z;
     chat_scrollHeight := fun l => (Z.of_nat (List.length l) * 60)%Z |}.

(** The page once loaded, with the welcome block the new-chat template also
    shows. *)
Definition fresh : world := boot demo (loaded [WelcomeMessage] "" true 24 0).

(** The user has typed a question. *)
Definition asked : world := step demo (InputEvent "  hello ") fresh.

(** The page with a session the server has assigned. *)
Definition in_session : world :=
  settle_session demo 0 (Val {| ok := true |})
    (Val (JObj [("session_id", JStr "abc")])) fresh.

(** White space for the examples of [trim]: U+00A0, U+3000 and LF. *)
Definition nbsp : string := String (ascii_of_nat 194) (String (ascii_of_nat 160) "").

Definition ideographic_space : string :=
  String (ascii_of_nat 227) (String (ascii_of_nat 128) (String (ascii_of_nat 128) "")).

Definition line_feed : string := String (ascii_of_nat 10) "".

(** * Lemmas *)

(** ** Lists *)

Section Rows.

Variable p : row -> bool.




Lemma remove_first_miss (l : list row) :
  find_index p l = None -> remove_first p l = l.
Proof. unfold remove_first. now intros ->. Qed.



Lemma count_app (l t : list row) : count p (l ++ t) = (count p l + count p t)%nat.
Proof. unfold count. now rewrite filter_app, length_app. Qed.

Lemma count_zero_iff (l : list row) :
  count p l = 0%nat <-> find_index p l = None.
Proof.
  unfold count. induction l as [|a l IH]; simpl; [tauto|].
  destruct (p a); simpl.
  - split; discriminate.
  - rewrite IH. destruct (find_index p l); simpl; split; congruence.
Qed.

Lemma count_remove_first (l : list row) :
  count p (remove_first p l) = Nat.pred (count p l).
Proof.
  unfold remove_first, count. induction l as [|a l IH]; simpl; [reflexivity|].
  destruct (p a) eqn:Ea; simpl; [reflexivity|].
  destruct (find_index p l) eqn:E; simpl; rewrite Ea; exact IH.
Qed.


End Rows.

Lemma remove_first_other_count (p q : row -> bool) (l : list row) :
  (count q (remove_first p l) <= count q l)%nat.
Proof.
  unfold remove_first, count.
  destruct (find_index p l) as [n|]; [|lia].
  revert n. induction l as [|a l IH]; intros n; simpl; [lia|].
  destruct n; simpl.
  - destruct (q a); simpl; lia.
  - specialize (IH n). destruct (q a); simpl; lia.
Qed.

Lemma remove_first_twice (p : row -> bool) (l : list row) :
  (count p l <= 1)%nat -> remove_first p (remove_first p l) = remove_first p l.
Proof.
  intros H. apply remove_first_miss. apply count_zero_iff.
  rewrite count_remove_first. lia.
Qed.


Lemma remove_first_incl (p : row -> bool) (l : list row) (r : row) :
  In r (remove_first p l) -> In r l.
Proof.
  unfold remove_first. destruct (find_index p l) as [n|]; [|auto].
  revert n. induction l as [|a l IH]; intros n; cbn; [auto|].
  destruct n; cbn; [auto|]. intros [H|H]; [auto|]. right. eapply IH; eassumption.
Qed.

Lemma Forall_remove_first (Q : row -> Prop) (p : row -> bool) (l : list row) :
  Forall Q l -> Forall Q (remove_first p l).
Proof.
  rewrite !Forall_forall. intros H r Hr. apply H.
  eapply remove_first_incl; eassumption.
Qed.

Lemma nth_error_mid {A} (l t : list A) (a : A) :
  nth_error (l ++ a :: t) (List.length l) = Some a.
Proof. induction l; simpl; auto. Qed.

Lemma nth_error_last {A} (l : list A) (a : A) :
  nth_error (l ++ [a]) (List.length l) = Some a.
Proof. apply nth_error_mid. Qed.

Lemma nth_error_past {A} (l : list A) : nth_error l (List.length l) = None.
Proof. induction l; cbn; auto. Qed.

Lemma drop_nth_mid {A} (l t : list A) (a : A) :
  drop_nth (List.length l) (l ++ a :: t) = l ++ t.
Proof. induction l; simpl; [reflexivity | now f_equal]. Qed.

Lemma drop_nth_last {A} (l : list A) (a : A) :
  drop_nth (List.length l) (l ++ [a]) = l.
Proof. rewrite drop_nth_mid. apply app_nil_r. Qed.

Lemma filter_drop_nth {A} (p : A -> bool) (l : list A) (i : nat) (t : A) :
  nth_error l i = Some t ->
  List.length (filter p l) =
  (List.length (filter p (drop_nth i l)) + if p t then 1 else 0)%nat.
Proof.
  revert i. induction l as [|a l IH]; intros i H.
  - now destruct i.
  - destruct i; cbn in H |- *.
    + injection H as ->. destruct (p t); cbn; lia.
    + specialize (IH i H). destruct (p a); cbn; lia.
Qed.

Lemma Forall_drop_nth {A} (Q : A -> Prop) (l : list A) (i : nat) :
  Forall Q l -> Forall Q (drop_nth i l).
Proof.
  intros H. revert i. induction H as [|a l Ha Hl IH]; intros i.
  - constructor.
  - destruct i; cbn; [assumption | constructor; auto].
Qed.

(** ** [trim] on examples *)

Example trim_ascii : trim ("  " ++ line_feed ++ "a  b " ++ line_feed)%string = "a  b".
Proof. reflexivity. Qed.

Example trim_unicode :
  trim (nbsp ++ "a b" ++ ideographic_space ++ " " ++ nbsp)%string = "a b".
Proof. reflexivity. Qed.

Example trim_keeps_text : trim " 抱歉 。 " = "抱歉 。".
Proof. reflexivity. Qed.

Example trim_blank : trim (" " ++ nbsp ++ line_feed ++ ideographic_space)%string = "".
Proof. reflexivity. Qed.

(** ** The three functions, run *)

Lemma initializeSession_start (s : state) :
  initializeSession s = AwaitFetch (log_request new_session_request s) init_on_fetch.
Proof. reflexivity. Qed.

Lemma init_on_fetch_eq (o : res response) (s : state) :
  init_on_fetch o s =
  match o with
  | Val _ => AwaitJson s init_on_json
  | Exn e => Fin (Val tt) (log_error "初始化会话失败:" e s)
  end.
Proof. destruct o; reflexivity. Qed.

Lemma init_on_json_eq (o : res json) (s : state) :
  init_on_json o s = Fin (Val tt) (session_result "初始化会话失败:" o s).
Proof.
  destruct o as [data|e]; [|reflexivity].
  unfold session_result. destruct data; reflexivity.
Qed.

Lemma handleNewChat_start (s : state) :
  handleNewChat s =
  AwaitFetch (log_request new_session_request (set_chat [WelcomeMessage] s))
    newchat_on_fetch.
Proof. reflexivity. Qed.

Lemma newchat_on_fetch_eq (o : res response) (s : state) :
  newchat_on_fetch o s =
  match o with
  | Val _ => AwaitJson s newchat_on_json
  | Exn e => Fin (Val tt) (log_error "创建新会话失败:" e s)
  end.
Proof. destruct o; reflexivity. Qed.

Lemma newchat_on_json_eq (o : res json) (s : state) :
  newchat_on_json o s = Fin (Val tt) (session_result "创建新会话失败:" o s).
Proof.
  destruct o as [data|e]; [|reflexivity].
  unfold session_result. destruct data; reflexivity.
Qed.

(** What a session request does, by case: a body that parses to something
    other than [null] is a success and its [session_id] member is stored; a
    rejected request, an unreadable body and a [null] body leave the stored
    identifier, the rows and the requests as they are and log the error. *)
Lemma session_outcome_cases (label : string) (o1 : res response) (o2 : res json)
    (s : state) :
  (forall r data v, o1 = Val r -> o2 = Val data ->
     member data "session_id" = Val v ->
     session_outcome label o1 o2 s = set_currentSessionId v s)
  /\ ((exists e, o1 = Exn e) \/ (exists e, o2 = Exn e) \/ o2 = Val JNull ->
      exists e, session_outcome label o1 o2 s = log_error label e s).
Proof.
  split.
  - intros r data v -> -> Hv. cbn. now rewrite Hv.
  - intros [[e ->]|[[e ->]| ->]].
    + now exists e.
    + destruct o1 as [r|e']; [now exists e | now exists e'].
    + destruct o1 as [r|e']; [now exists TypeError | now exists e'].
Qed.

Section Suspensions.

Variable P : platform.

(** Evaluate a piece of the script, splitting on what it branches on. *)
Ltac crunch :=
  repeat (cbn; unfold addMessage; cbn;
          match goal with
          | H : find_index ?p ?l = _ |- context [find_index ?p ?l] => rewrite H
          | H : assoc ?k ?l = _ |- context [assoc ?k ?l] => rewrite H
          | |- context [find_index ?p ?l] => destruct (find_index p l) eqn:?
          | |- context [window_marked P] => destruct (window_marked P)
          | |- context [window_DOMPurify P] => destruct (window_DOMPurify P)
          | |- context [marked_parse_other P ?v] => destruct (marked_parse_other P v)
          end);
  try reflexivity.

Lemma handleSend_skip (s : state) :
  trim (inputValue s) = "" \/ isWaitingResponse s = true ->
  handleSend P s = Fin (Val tt) s.
Proof.
  intros H. unfold handleSend. cbn.
  destruct H as [-> | ->]; [reflexivity|].
  now rewrite orb_true_r.
Qed.

Lemma handleSend_start (s : state) :
  trim (inputValue s) <> "" -> isWaitingResponse s = false ->
  handleSend P s = AwaitFetch (started P (trim (inputValue s)) s) (send_on_fetch P).
Proof.
  intros Hm Hw. apply String.eqb_neq in Hm.
  unfold handleSend. cbn. unfold truthy. rewrite Hm, Hw. cbn.
  unfold started, remove_first, is_welcome.
  destruct (find_index (has_class "welcome-message") (chat s)); cbn;
    rewrite <- app_assoc; reflexivity.
Qed.

Lemma send_on_fetch_eq (o : res response) (s : state) :
  send_on_fetch P o s =
  match o with
  | Val r =>
      if ok r then AwaitJson s (send_on_json P)
      else Fin (Val tt) (failed P (Error "请求失败") s)
  | Exn e => Fin (Val tt) (failed P e s)
  end.
Proof.
  unfold failed, answered, render, remove_first, is_indicator.
  destruct o as [[[|]]|e]; [reflexivity| |]; crunch.
Qed.

Lemma send_on_json_eq (o : res json) (s : state) :
  send_on_json P o s = Fin (Val tt) (send_result P o s).
Proof.
  unfold send_result, failed, answered, render, render_value, indicator_removed,
    remove_first, is_indicator.
  destruct o as [data|e]; [|crunch].
  destruct data as [| | | | |ms]; cbn [member].
  6: destruct (assoc "response" ms) as [[]|] eqn:?.
  all: crunch.
Qed.

End Suspensions.

(** ** Steps of the event loop *)

Section Tasks.

Variable P : platform.

Lemma world_eta (w : world) : {| page := page w; tasks := tasks w |} = w.
Proof. now destruct w. Qed.

Lemma call_handleSend_skip (w : world) :
  trim (inputValue (page w)) = "" \/ isWaitingResponse (page w) = true ->
  call HandleSend (handleSend P) w = w.
Proof.
  intros H. unfold call. rewrite handleSend_skip by assumption.
  now destruct w.
Qed.

Lemma call_handleSend_start (w : world) :
  trim (inputValue (page w)) <> "" -> isWaitingResponse (page w) = false ->
  call HandleSend (handleSend P) w =
  {| page := started P (trim (inputValue (page w))) (page w);
     tasks := tasks w ++ [fetch_task P HandleSend] |}.
Proof.
  intros Hm Hw. unfold call. now rewrite handleSend_start.
Qed.

Lemma step_newChat (w : world) :
  step P Click_newChatBtn w =
  {| page := log_request new_session_request (set_chat [WelcomeMessage] (page w));
     tasks := tasks w ++ [fetch_task P HandleNewChat] |}.
Proof. reflexivity. Qed.

Lemma settle_send_fetch (w : world) (i : nat) (o : res response) :
  nth_error (tasks w) i = Some (fetch_task P HandleSend) ->
  step P (FetchSettled i o) w =
  match o with
  | Val r =>
      if ok r
      then {| page := page w;
              tasks := drop_nth i (tasks w) ++ [json_task P HandleSend] |}
      else {| page := failed P (Error "请求失败") (page w);
              tasks := drop_nth i (tasks w) |}
  | Exn e => {| page := failed P e (page w); tasks := drop_nth i (tasks w) |}
  end.
Proof.
  intros H. unfold step. rewrite H. cbn [fetch_task origin_of awaits].
  rewrite send_on_fetch_eq. destruct o as [[[|]]|e]; reflexivity.
Qed.

Lemma settle_send_json (w : world) (i : nat) (o : res json) :
  nth_error (tasks w) i = Some (json_task P HandleSend) ->
  step P (JsonSettled i o) w =
  {| page := send_result P o (page w); tasks := drop_nth i (tasks w) |}.
Proof.
  intros H. unfold step. rewrite H. cbn [json_task origin_of awaits].
  now rewrite send_on_json_eq.
Qed.

Lemma settle_session_fetch (w : world) (i : nat) (f : origin) (o : res response) :
  is_session f = true ->
  nth_error (tasks w) i = Some (fetch_task P f) ->
  step P (FetchSettled i o) w =
  match o with
  | Val _ => {| page := page w; tasks := drop_nth i (tasks w) ++ [json_task P f] |}
  | Exn e => {| page := log_error (label_of f) e (page w);
                tasks := drop_nth i (tasks w) |}
  end.
Proof.
  intros Hf H. unfold step. rewrite H.
  destruct f; try discriminate Hf; cbn [fetch_task origin_of awaits].
  - rewrite init_on_fetch_eq. now destruct o.
  - rewrite newchat_on_fetch_eq. now destruct o.
Qed.

Lemma settle_session_json (w : world) (i : nat) (f : origin) (o : res json) :
  is_session f = true ->
  nth_error (tasks w) i = Some (json_task P f) ->
  step P (JsonSettled i o) w =
  {| page := session_result (label_of f) o (page w);
     tasks := drop_nth i (tasks w) |}.
Proof.
  intros Hf H. unfold step. rewrite H.
  destruct f; try discriminate Hf; cbn [json_task origin_of awaits].
  - now rewrite init_on_json_eq.
  - now rewrite newchat_on_json_eq.
Qed.

End Tasks.

Lemma settle_session_eq (P : platform) (f : origin) (s : state) (ts : list task)
    (o1 : res response) (o2 : res json) :
  is_session f = true ->
  settle_session P (List.length ts) o1 o2
    {| page := s; tasks := ts ++ [fetch_task P f] |} =
  {| page := session_outcome (label_of f) o1 o2 s; tasks := ts |}.
Proof.
  intros Hf. unfold settle_session, steps. cbn [fold_left].
  rewrite (settle_session_fetch P _ _ f o1 Hf) by (cbn [tasks]; apply nth_error_last).
  cbn [tasks page]. rewrite drop_nth_last. destruct o1 as [r|e]; cbn [session_outcome].
  - rewrite (settle_session_json P _ _ f o2 Hf) by (cbn [tasks]; apply nth_error_last).
    cbn [tasks page]. now rewrite drop_nth_last.
  - cbn [step tasks]. now rewrite nth_error_past.
Qed.

Lemma same_exchange_refl (s : state) : same_exchange s s.
Proof. now split. Qed.

Lemma same_exchange_trans (s1 s2 s3 : state) :
  same_exchange s1 s2 -> same_exchange s2 s3 -> same_exchange s1 s3.
Proof. intros [] []; split; congruence. Qed.

(** ** One exchange *)

Section Exchange.

Variable P : platform.


Lemma waiting_failed (e : exn) (s : state) :
  isWaitingResponse (failed P e s) = false.
Proof. reflexivity. Qed.

Lemma chat_failed (e : exn) (s : state) :
  chat (failed P e s) =
  remove_first is_indicator (chat s) ++ [assistant_row (render P apology)].
Proof. reflexivity. Qed.

Lemma waiting_send_result (o : res json) (s : state) :
  isWaitingResponse (send_result P o s) = false.
Proof.
  unfold send_result. destruct o as [data|e]; [|reflexivity].
  destruct (member data "response") as [v|e]; [|reflexivity].
  now destruct (render_value P v).
Qed.

Lemma chat_send_result (o : res json) (s : state) :
  (count is_indicator (chat s) <= 1)%nat ->
  chat (send_result P o s) =
  remove_first is_indicator (chat s) ++ [assistant_row (reply_body P o)].
Proof.
  intros H. unfold send_result, reply_body.
  destruct o as [data|e]; [|reflexivity].
  destruct (member data "response") as [v|e].
  - destruct (render_value P v); [reflexivity|].
    rewrite chat_failed. cbn [indicator_removed set_chat chat].
    now rewrite remove_first_twice.
  - rewrite chat_failed. cbn [indicator_removed set_chat chat].
    now rewrite remove_first_twice.
Qed.



End Exchange.

(** ** The listed changes cover every step *)

Section Effects.

Variable P : platform.

Lemma handleSend_effect (e : event) (w : world) :
  effect P w e (call HandleSend (handleSend P) w).
Proof.
  destruct (String.eqb_spec (trim (inputValue (page w))) "") as [Hm|Hm].
  - rewrite call_handleSend_skip by now left. constructor.
  - destruct (isWaitingResponse (page w)) eqn:Hw.
    + rewrite call_handleSend_skip by now right. constructor.
    + rewrite call_handleSend_start by assumption. now constructor.
Qed.

Lemma step_effect (e : event) (w : world) :
  Forall (genuine P) (tasks w) -> effect P w e (step P e w).
Proof.
  intros Hg. destruct e as [| |v| | |key shiftKey|i o|i o].
  - cbn [step]. destruct (sendDisabled (page w)); [constructor|].
    apply handleSend_effect.
  - rewrite step_newChat. constructor.
  - apply eff_ui. now split.
  - apply eff_ui. now split.
  - apply eff_ui. now split.
  - cbn [step]. unfold call, onKeydown. cbn -[trim handleSend].
    destruct ((key =? "Enter") && negb shiftKey && negb (isComposing (page w)));
      cbn -[trim handleSend]; [|rewrite world_eta; constructor].
    destruct (negb (isWaitingResponse (page w))
              && truthy (trim (inputValue (page w))));
      [apply handleSend_effect | cbn; rewrite world_eta; constructor].
  - destruct (nth_error (tasks w) i) as [t|] eqn:Ht;
      [|cbn [step]; rewrite Ht; constructor].
    assert (Hgt : genuine P t).
    { rewrite Forall_forall in Hg. apply Hg. eapply nth_error_In. exact Ht. }
    destruct Hgt as [Hl [E|E]]; rewrite E in Ht.
    + destruct (origin_of t) eqn:Ho; try congruence.
      * rewrite (settle_session_fetch P w i InitializeSession o eq_refl Ht).
        now apply eff_session_fetch.
      * rewrite (settle_send_fetch P w i o Ht). now apply eff_send_fetch.
      * rewrite (settle_session_fetch P w i HandleNewChat o eq_refl Ht).
        now apply eff_session_fetch.
    + cbn [step]. rewrite Ht. cbn [json_task awaits]. constructor.
  - destruct (nth_error (tasks w) i) as [t|] eqn:Ht;
      [|cbn [step]; rewrite Ht; constructor].
    assert (Hgt : genuine P t).
    { rewrite Forall_forall in Hg. apply Hg. eapply nth_error_In. exact Ht. }
    destruct Hgt as [Hl [E|E]]; rewrite E in Ht.
    + cbn [step]. rewrite Ht. cbn [fetch_task awaits]. constructor.
    + destruct (origin_of t) eqn:Ho; try congruence.
      * rewrite (settle_session_json P w i InitializeSession o eq_refl Ht).
        now apply eff_session_json.
      * rewrite (settle_send_json P w i o Ht). now apply eff_send_json.
      * rewrite (settle_session_json P w i HandleNewChat o eq_refl Ht).
        now apply eff_session_json.
Qed.

End Effects.

(** ** Invariants of the event loop *)

Section Invariants.

Variable P : platform.

Lemma boot_eq (s0 : state) :
  boot P s0 =
  {| page := set_inputHeight (Z.min (input_scrollHeight P (inputValue s0)) 200)
               (log_request new_session_request s0);
     tasks := [fetch_task P InitializeSession] |}.
Proof. reflexivity. Qed.

Lemma genuine_fetch_task (f : origin) : f <> Listener -> genuine P (fetch_task P f).
Proof. intros H. split; [exact H | now left]. Qed.

Lemma genuine_json_task (f : origin) : f <> Listener -> genuine P (json_task P f).
Proof. intros H. split; [exact H | now right]. Qed.

Lemma session_not_listener (f : origin) : is_session f = true -> f <> Listener.
Proof. now destruct f. Qed.

Lemma effect_genuine (w w' : world) (e : event) :
  Forall (genuine P) (tasks w) -> effect P w e w' ->
  Forall (genuine P) (tasks w').
Proof.
  intros Hg He.
  assert (Hadd : forall i t, genuine P t ->
            Forall (genuine P) (drop_nth i (tasks w) ++ [t])).
  { intros i t Ht. apply Forall_app. split; [now apply Forall_drop_nth|].
    now constructor. }
  destruct He as [e|e s Hs|e Hm Hw| |i f o Hf Hn|i f o Hf Hn|i o Hn|i o Hn];
    cbn [tasks]; try assumption.
  - apply Forall_app. split; [assumption|]. constructor; [|constructor].
    now apply genuine_fetch_task.
  - apply Forall_app. split; [assumption|]. constructor; [|constructor].
    now apply genuine_fetch_task.
  - destruct o; cbn [tasks]; [|now apply Forall_drop_nth].
    apply Hadd, genuine_json_task. now apply session_not_listener.
  - now apply Forall_drop_nth.
  - destruct o as [[[|]]|]; cbn [tasks ok]; try now apply Forall_drop_nth.
    now apply Hadd, genuine_json_task.
  - now apply Forall_drop_nth.
Qed.

(** An invariant of the listed changes holds in every reachable world. *)
Lemma reachable_invariant (I : world -> Prop) (s0 : state) :
  I (boot P s0) ->
  (forall w e w', Forall (genuine P) (tasks w) -> I w -> effect P w e w' -> I w') ->
  forall w, reachable P (boot P s0) w -> Forall (genuine P) (tasks w) /\ I w.
Proof.
  intros H0 Hstep w Hr. induction Hr as [|w e Hr [Hg Hi]].
  - split; [|exact H0]. rewrite boot_eq. cbn [tasks].
    constructor; [|constructor]. now apply genuine_fetch_task.
  - pose proof (step_effect P e w Hg) as He. split.
    + eapply effect_genuine; eassumption.
    + eapply Hstep; eassumption.
Qed.

Lemma pending_sends_add (ts : list task) (t : task) (s : state) :
  pending_sends {| page := s; tasks := ts ++ [t] |} =
  (List.length (filter is_send ts) + flag (is_send t))%nat.
Proof.
  unfold pending_sends. cbn [tasks]. rewrite filter_app, length_app.
  cbn. now destruct (is_send t).
Qed.

Lemma session_task_not_send (f : origin) :
  is_session f = true ->
  is_send (fetch_task P f) = false /\ is_send (json_task P f) = false.
Proof. now destruct f. Qed.

Lemma effect_one_send (w w' : world) (e : event) :
  one_send w -> effect P w e w' -> one_send w'.
Proof.
  unfold one_send. intros Hi He.
  destruct He as [e|e s Hs|e Hm Hw| |i f o Hf Hn|i f o Hf Hn|i o Hn|i o Hn].
  - exact Hi.
  - unfold pending_sends in *. cbn [page tasks]. now rewrite (same_waiting Hs).
  - rewrite pending_sends_add. cbn [page started isWaitingResponse].
    unfold pending_sends in Hi. rewrite Hi, Hw. reflexivity.
  - rewrite pending_sends_add. unfold pending_sends in Hi. rewrite Hi.
    cbn. lia.
  - destruct (session_task_not_send f Hf) as [Hs1 Hs2].
    pose proof (filter_drop_nth is_send _ _ _ Hn) as Hc. rewrite Hs1 in Hc.
    unfold pending_sends in Hi. destruct o.
    + rewrite pending_sends_add, Hs2. cbn [page flag]. lia.
    + unfold pending_sends. cbn [page tasks]. cbn. lia.
  - destruct (session_task_not_send f Hf) as [Hs1 Hs2].
    pose proof (filter_drop_nth is_send _ _ _ Hn) as Hc. rewrite Hs2 in Hc.
    unfold pending_sends in *. cbn [page tasks].
    replace (isWaitingResponse (session_result (label_of f) o (page w)))
      with (isWaitingResponse (page w)); [lia|].
    unfold session_result. destruct o as [data|]; [|reflexivity].
    now destruct (member data "session_id").
  - pose proof (filter_drop_nth is_send _ _ _ Hn) as Hc. cbn in Hc.
    unfold pending_sends in Hi.
    assert (Hb : isWaitingResponse (page w) = true).
    { destruct (isWaitingResponse (page w)); [reflexivity | cbn in Hi; lia]. }
    rewrite Hb in Hi. cbn in Hi.
    destruct o as [[[|]]|]; cbn [ok].
    + rewrite pending_sends_add. cbn [page]. rewrite Hb. cbn. lia.
    + unfold pending_sends. cbn [page tasks]. rewrite waiting_failed. cbn. lia.
    + unfold pending_sends. cbn [page tasks]. rewrite waiting_failed. cbn. lia.
  - pose proof (filter_drop_nth is_send _ _ _ Hn) as Hc. cbn in Hc.
    unfold pending_sends in *.
    assert (Hb : isWaitingResponse (page w) = true).
    { destruct (isWaitingResponse (page w)); [reflexivity | cbn in Hi; lia]. }
    rewrite Hb in Hi. cbn in Hi.
    cbn [page tasks]. rewrite waiting_send_result. cbn. lia.
Qed.

Lemma reachable_one_send (chat0 : list row) (value0 : string) (disabled0 : bool)
    (height0 scrollTop0 : Z) (w : world) :
  reachable P (boot P (loaded chat0 value0 disabled0 height0 scrollTop0)) w ->
  one_send w.
Proof.
  intros Hr.
  apply (reachable_invariant one_send
           (loaded chat0 value0 disabled0 height0 scrollTop0)); [reflexivity| |exact Hr].
  intros w0 e w' _. apply effect_one_send.
Qed.

Lemma session_result_same (label : string) (o : res json) (s : state) :
  chat (session_result label o s) = chat s
  /\ isWaitingResponse (session_result label o s) = isWaitingResponse s
  /\ requests (session_result label o s) = requests s.
Proof.
  unfold session_result. destruct o as [data|]; [|now repeat split].
  now destruct (member data "session_id").
Qed.

Lemma effect_indicator_ok (w w' : world) (e : event) :
  indicator_ok w -> effect P w e w' -> indicator_ok w'.
Proof.
  unfold indicator_ok. intros Hi He.
  assert (Hi1 : (count is_indicator (chat (page w)) <= 1)%nat)
    by (destruct (isWaitingResponse (page w)); cbn in Hi; lia).
  destruct He as [e|e s Hse|e Hm Hb| |i f o Hf Hn|i f o Hf Hn|i o Hn|i o Hn].
  - exact Hi.
  - cbn [page]. now rewrite (same_chat Hse), (same_waiting Hse).
  - rewrite Hb in Hi. cbn in Hi. cbn [page started chat isWaitingResponse flag].
    rewrite count_app.
    pose proof (remove_first_other_count is_welcome is_indicator (chat (page w))).
    cbn. lia.
  - cbn. lia.
  - now destruct o.
  - cbn [page].
    destruct (session_result_same (label_of f) o (page w)) as (-> & -> & _).
    exact Hi.
  - destruct o as [[[|]]|]; cbn [ok page]; [exact Hi| |];
      rewrite chat_failed, waiting_failed, count_app, count_remove_first;
      cbn; lia.
  - cbn [page]. rewrite chat_send_result by exact Hi1.
    rewrite waiting_send_result, count_app, count_remove_first. cbn. lia.
Qed.




End Invariants.

Section Rows_ok.

Variable P : platform.

Lemma safe_render (content : string) : safe_body P (render P content).
Proof.
  unfold render. destruct (window_marked P && window_DOMPurify P); cbn; eauto.
Qed.

Lemma safe_render_value (v : jsval) (b : body) :
  render_value P v = Val b -> safe_body P b.
Proof.
  unfold render_value. destruct (window_marked P && window_DOMPurify P).
  - destruct (marked_parse_value P v); [|discriminate].
    intros H. injection H as <-. cbn. eauto.
  - intros H. injection H as <-. exact I.
Qed.

Lemma safe_reply_body (o : res json) : safe_body P (reply_body P o).
Proof.
  unfold reply_body. destruct o as [data|]; [|apply safe_render].
  destruct (member data "response") as [v|]; [|apply safe_render].
  destruct (render_value P v) eqn:E; [|apply safe_render].
  eapply safe_render_value; eassumption.
Qed.

Lemma rows_after_answer (c : list row) (b : body) :
  (count is_welcome c <= 1)%nat ->
  Forall (safe_row P) c -> safe_body P b ->
  (count is_welcome (remove_first is_indicator c ++ [assistant_row b]) <= 1)%nat
  /\ Forall (safe_row P) (remove_first is_indicator c ++ [assistant_row b]).
Proof.
  intros Hw Hs Hb. split.
  - rewrite count_app. pose proof (remove_first_other_count is_indicator is_welcome c).
    cbn. lia.
  - apply Forall_app. split; [now apply Forall_remove_first|].
    constructor; [exact Hb | constructor].
Qed.

Lemma effect_rows_ok (w w' : world) (e : event) :
  indicator_ok w -> rows_ok P w -> effect P w e w' -> rows_ok P w'.
Proof.
  intros Hi [Hw Hs] He.
  assert (Hi1 : (count is_indicator (chat (page w)) <= 1)%nat)
    by (unfold indicator_ok in Hi; destruct (isWaitingResponse (page w));
        cbn in Hi; lia).
  assert (Hfail : forall x ts,
            rows_ok P {| page := failed P x (page w); tasks := ts |}).
  { intros x ts.
    destruct (rows_after_answer (chat (page w)) (render P apology) Hw Hs
                (safe_render apology)) as (B & C).
    split; cbn [page]; rewrite chat_failed; cbn [log_error chat]; assumption. }
  destruct He as [e|e s Hse|e Hm Hb| |i f o Hf Hn|i f o Hf Hn|i o Hn|i o Hn].
  - now split.
  - split; cbn [page]; rewrite (same_chat Hse); assumption.
  - split; cbn [page started chat].
    + rewrite count_app, count_remove_first. cbn. lia.
    + apply Forall_app. split; [now apply Forall_remove_first|].
      constructor; [exact I|]. constructor; [reflexivity | constructor].
  - split; cbn; [lia | constructor; [exact I | constructor]].
  - destruct o; now split.
  - destruct (session_result_same (label_of f) o (page w)) as (Ec & _).
    split; cbn [page]; rewrite Ec; assumption.
  - destruct o as [[[|]]|]; cbn [ok]; [now split | apply Hfail | apply Hfail].
  - destruct (rows_after_answer (chat (page w)) (reply_body P o) Hw Hs
                (safe_reply_body _)) as (B & C).
    split; cbn [page]; rewrite chat_send_result by exact Hi1; assumption.
Qed.

(** From a document without a row carrying the indicator's id, with at most
    one welcome block and with sanitized markup only, every reachable page
    has at most one welcome block and sanitized markup only. *)
Lemma reachable_rows_ok (chat0 : list row) (value0 : string) (disabled0 : bool)
    (height0 scrollTop0 : Z) (w : world) :
  find_index is_indicator chat0 = None ->
  (count is_welcome chat0 <= 1)%nat ->
  Forall (safe_row P) chat0 ->
  reachable P (boot P (loaded chat0 value0 disabled0 height0 scrollTop0)) w ->
  rows_ok P w.
Proof.
  intros Hi Hw Hs Hr.
  apply (reachable_invariant P (fun w => indicator_ok w /\ rows_ok P w)
           (loaded chat0 value0 disabled0 height0 scrollTop0)); [| |exact Hr].
  - split; [|now split].
    unfold indicator_ok. cbn. apply count_zero_iff in Hi. unfold count in Hi. lia.
  - intros w0 e w' _ [Hi0 Hr0] He. split.
    + eapply effect_indicator_ok; eassumption.
    + eapply effect_rows_ok; eassumption.
Qed.

End Rows_ok.



Lemma reachable_steps (P : platform) (w0 w : world) (es : list event) :
  reachable P w0 w -> reachable P w0 (steps P es w).
Proof.
  unfold steps. revert w. induction es as [|e es IH]; intros w H; cbn; [exact H|].
  apply IH. now constructor.
Qed.


(** ** From the call of [handleSend] to its completion *)

Section Pending.

Variable P : platform.



(** The task a settlement of [handleSend]'s promise finds. *)
Lemma settles_send_task (w : world) (e : event) :
  Forall (genuine P) (tasks w) -> settles_send e w = true ->
  (exists i o, e = FetchSettled i o
               /\ nth_error (tasks w) i = Some (fetch_task P HandleSend))
  \/ (exists i o, e = JsonSettled i o
                  /\ nth_error (tasks w) i = Some (json_task P HandleSend)).
Proof.
  intros Hg Hs. rewrite Forall_forall in Hg.
  destruct e as [| |v| | |key shiftKey|i o|i o]; try discriminate Hs;
    cbn [settles_send] in Hs;
    destruct (nth_error (tasks w) i) as [[f a]|] eqn:Ht; try discriminate Hs;
    destruct f; try discriminate Hs; destruct a as [k|k]; try discriminate Hs;
    destruct (Hg _ (nth_error_In _ _ Ht)) as [_ [E|E]];
    cbn [origin_of fetch_task json_task] in E; try discriminate E.
  - left. exists i, o. split; [reflexivity|]. now rewrite Ht, E.
  - right. exists i, o. split; [reflexivity|]. now rewrite Ht, E.
Qed.



End Pending.

(** * The claims *)





(** C3.  When the text of the input field is empty after trimming,
    [handleSend] returns at once and leaves the page exactly as it was: no
    request is logged, no row is appended, the input field, the busy flag and
    the session id keep their values, and no task is created.  The same holds
    for a click on the send button and for the Enter key. *)
Theorem blank_send_is_noop (P : platform) (w : world) :
  trim (inputValue (page w)) = "" ->
  handleSend P (page w) = Fin (Val tt) (page w)
  /\ call HandleSend (handleSend P) w = w
  /\ step P Click_sendBtn w = w
  /\ forall shiftKey, step P (Keydown "Enter" shiftKey) w = w.
Proof.
  intros H. split; [|split; [|split]].
  - apply handleSend_skip. now left.
  - apply call_handleSend_skip. now left.
  - cbn [step]. destruct (sendDisabled (page w)); [reflexivity|].
    apply call_handleSend_skip. now left.
  - intros shiftKey. cbn [step]. unfold call, onKeydown. cbn -[trim].
    destruct (negb shiftKey && negb (isComposing (page w))); cbn -[trim];
      rewrite ?H; destruct (isWaitingResponse (page w)); cbn; now destruct w.
Qed.

(** C3 on the example page, for blanks and a tab. *)
Lemma blank_send_is_noop_witness :
  trim "  	 " = ""
  /\ call HandleSend (handleSend demo) (step demo (InputEvent "  	 ") fresh)
     = step demo (InputEvent "  	 ") fresh.
Proof.
  split; [reflexivity|].
  apply (blank_send_is_noop demo (step demo (InputEvent "  	 ") fresh)).
  reflexivity.
Defined.

(** C4.  In every world the page can reach, at most one request of
    [handleSend] is in flight, and there is one exactly when
    [isWaitingResponse] holds.  While it holds, a further call of
    [handleSend] -- directly, by a click on the send button or by a key --
    returns at once and leaves the world as it is: no request is logged, no
    row changes, no task is added. *)
Theorem at_most_one_send_in_flight (P : platform) (chat0 : list row)
    (value0 : string) (disabled0 : bool) (height0 scrollTop0 : Z) (w : world) :
  reachable P (boot P (loaded chat0 value0 disabled0 height0 scrollTop0)) w ->
  (pending_sends w <= 1)%nat
  /\ (pending_sends w = 1%nat <-> isWaitingResponse (page w) = true)
  /\ (isWaitingResponse (page w) = true ->
      handleSend P (page w) = Fin (Val tt) (page w)
      /\ call HandleSend (handleSend P) w = w
      /\ step P Click_sendBtn w = w
      /\ forall key shiftKey, step P (Keydown key shiftKey) w = w).
Proof.
  intros Hr. pose proof (reachable_one_send P _ _ _ _ _ w Hr) as H.
  unfold one_send in H. split; [|split].
  - rewrite H. destruct (isWaitingResponse (page w)); cbn; lia.
  - rewrite H. destruct (isWaitingResponse (page w)); cbn; split; congruence.
  - intros Hb. split; [|split; [|split]].
    + apply handleSend_skip. now right.
    + apply call_handleSend_skip. now right.
    + cbn [step]. destruct (sendDisabled (page w)); [reflexivity|].
      apply call_handleSend_skip. now right.
    + intros key shiftKey. cbn [step]. unfold call, onKeydown. cbn -[trim handleSend].
      destruct ((key =? "Enter") && negb shiftKey && negb (isComposing (page w)));
        cbn -[trim handleSend]; rewrite ?Hb; cbn; apply world_eta.
Qed.

(** C4 on the example page, after one click on the send button. *)
Lemma at_most_one_send_in_flight_witness :
  let w := step demo Click_sendBtn asked in
  isWaitingResponse (page w) = true
  /\ pending_sends w = 1%nat
  /\ step demo Click_sendBtn w = w.
Proof.
  assert (Hr : reachable demo (boot demo (loaded [WelcomeMessage] "" true 24 0))
                 (step demo Click_sendBtn asked)).
  { apply reach_step. apply reach_step. apply reach_start. }
  destruct (at_most_one_send_in_flight demo _ _ _ _ _ _ Hr) as (_ & Hone & Hskip).
  split; [reflexivity|]. split.
  - apply Hone. reflexivity.
  - destruct (Hskip eq_refl) as (_ & _ & Hc & _). exact Hc.
Defined.

(** C5, at a response the script does not treat as a failure: the server
    answers the session request with an error status and a JSON body that
    describes the error.  The stored identifier is overwritten with
    [undefined] and nothing is logged, at start-up and on a new chat alike. *)
Theorem session_error_status_overwrites_token :
  let error_reply :=
    settle_session demo 0 (Val {| ok := false |})
      (Val (JObj [("detail", JStr "Internal Server Error")])) in
  currentSessionId (page fresh) = Some (JStr "default")
  /\ currentSessionId (page (error_reply fresh)) = undefined
  /\ console (page (error_reply fresh)) = []
  /\ currentSessionId (page in_session) = Some (JStr "abc")
  /\ currentSessionId (page (error_reply (step demo Click_newChatBtn in_session)))
     = undefined
  /\ console (page (error_reply (step demo Click_newChatBtn in_session))) = [].
Proof. repeat split. Qed.

(** C6.  Whatever the rows were, a click on the new-chat button leaves the
    welcome block alone in the view and logs the same request as
    [initializeSession]; for every settlement of that request, the stored
    identifier, the requests and the errors logged are those
    [initializeSession] would produce (the console label differs), the view
    is still the welcome block and no task is left. *)
Theorem new_chat_resets_view (P : platform) (w : world) (o1 : res response)
    (o2 : res json) :
  let n := List.length (tasks w) in
  let reset := step P Click_newChatBtn w in
  let start := call InitializeSession initializeSession w in
  chat (page reset) = [WelcomeMessage]
  /\ requests (page reset) = requests (page w) ++ [new_session_request]
  /\ requests (page start) = requests (page w) ++ [new_session_request]
  /\ tasks reset = tasks w ++ [fetch_task P HandleNewChat]
  /\ tasks start = tasks w ++ [fetch_task P InitializeSession]
  /\ currentSessionId (page (settle_session P n o1 o2 reset)) =
     currentSessionId (page (settle_session P n o1 o2 start))
  /\ requests (page (settle_session P n o1 o2 reset)) =
     requests (page (settle_session P n o1 o2 start))
  /\ map snd (console (page (settle_session P n o1 o2 reset))) =
     map snd (console (page (settle_session P n o1 o2 start)))
  /\ chat (page (settle_session P n o1 o2 reset)) = [WelcomeMessage]
  /\ tasks (settle_session P n o1 o2 reset) = tasks w
  /\ tasks (settle_session P n o1 o2 start) = tasks w.
Proof.
  intros n reset start.
  assert (Er : reset =
            {| page := log_request new_session_request
                         (set_chat [WelcomeMessage] (page w));
               tasks := tasks w ++ [fetch_task P HandleNewChat] |})
    by apply step_newChat.
  assert (Es : start =
            {| page := log_request new_session_request (page w);
               tasks := tasks w ++ [fetch_task P InitializeSession] |})
    by reflexivity.
  unfold n. rewrite Er, Es, !settle_session_eq by reflexivity.
  cbn [page tasks].
  assert (H : forall l1 l2 s1 s2,
            currentSessionId s1 = currentSessionId s2 ->
            requests s1 = requests s2 ->
            map snd (console s1) = map snd (console s2) ->
            currentSessionId (session_outcome l1 o1 o2 s1)
              = currentSessionId (session_outcome l2 o1 o2 s2)
            /\ requests (session_outcome l1 o1 o2 s1)
               = requests (session_outcome l2 o1 o2 s2)
            /\ map snd (console (session_outcome l1 o1 o2 s1))
               = map snd (console (session_outcome l2 o1 o2 s2))).
  { intros l1 l2 s1 s2 H1 H2 H3. unfold session_outcome, session_result.
    destruct o1 as [r|e]; [destruct o2 as [data|e]|];
      [destruct (member data "session_id")| |]; cbn;
      rewrite ?map_app, ?H3; auto. }
  destruct (H (label_of HandleNewChat) (label_of InitializeSession)
              (log_request new_session_request (set_chat [WelcomeMessage] (page w)))
              (log_request new_session_request (page w))
              eq_refl eq_refl eq_refl) as (A & B & C).
  repeat split; try assumption.
  unfold session_outcome, session_result.
  destruct o1 as [r|e]; [destruct o2 as [data|e]|];
    [destruct (member data "session_id")| |]; reflexivity.
Qed.

(** C7.  [addMessage('assistant', content)] for a string [content] appends
    one row whose content is either the sanitizer's output on the parsed
    Markdown, set as markup, or, when a library is missing, the string
    itself set as text; there is no third way.  Hence in every world
    reachable from a document whose markup is sanitized, every row holds
    text, sanitized markup or the typing dots. *)
Theorem assistant_content_is_sanitized (P : platform) (content : string)
    (s : state) :
  (exists s',
     addMessage P Assistant (Some (JStr content)) s = Fin (Val tt) s'
     /\ chat s' = chat s ++ [assistant_row (render P content)])
  /\ (window_marked P && window_DOMPurify P = true ->
      render P content =
        InnerHTML (DOMPurify_sanitize P (marked_parse P content)))
  /\ (window_marked P && window_DOMPurify P = false ->
      render P content = TextContent content)
  /\ (forall chat0 value0 disabled0 height0 scrollTop0 w,
        find_index is_indicator chat0 = None ->
        (count is_welcome chat0 <= 1)%nat ->
        Forall (safe_row P) chat0 ->
        reachable P (boot P (loaded chat0 value0 disabled0 height0 scrollTop0)) w ->
        Forall (safe_row P) (chat (page w))).
Proof.
  split; [|split; [|split]].
  - unfold addMessage, render. cbn.
    destruct (window_marked P); cbn; [destruct (window_DOMPurify P); cbn|];
      eexists; split; reflexivity.
  - unfold render. now intros ->.
  - unfold render. now intros ->.
  - intros chat0 value0 disabled0 height0 scrollTop0 w Hi Hw Hs Hr.
    exact (all_safe _ _ (reachable_rows_ok P chat0 value0 disabled0 height0
                           scrollTop0 w Hi Hw Hs Hr)).
Qed.








(** * Further lemmas *)

(** ** The listed changes of the page cover every step *)

Section Changes.

Variable P : platform.

Lemma handleSend_change (e : event) (w : world) :
  e <> CompositionStart -> e <> CompositionEnd ->
  change P (page w) e (page (call HandleSend (handleSend P) w)).
Proof.
  intros H1 H2.
  destruct (String.eqb_spec (trim (inputValue (page w))) "") as [Hm|Hm].
  - rewrite call_handleSend_skip by now left. constructor.
  - destruct (isWaitingResponse (page w)) eqn:Hw.
    + rewrite call_handleSend_skip by now right. constructor.
    + rewrite call_handleSend_start by assumption. now constructor.
Qed.

Lemma step_input (v : string) (w : world) :
  step P (InputEvent v) w = {| page := edited P v (page w); tasks := tasks w |}.
Proof. reflexivity. Qed.

Lemma step_compositionStart (w : world) :
  step P CompositionStart w =
  {| page := set_isComposing true (page w); tasks := tasks w |}.
Proof. reflexivity. Qed.

Lemma step_compositionEnd (w : world) :
  step P CompositionEnd w =
  {| page := button_updated (set_isComposing false (page w)); tasks := tasks w |}.
Proof. reflexivity. Qed.

Lemma step_keydown (key : string) (shiftKey : bool) (w : world) :
  step P (Keydown key shiftKey) w =
  if keydown_prevented key shiftKey (page w)
  then call HandleSend (handleSend P) w
  else w.
Proof.
  cbn [step]. unfold call, onKeydown, keydown_prevented. cbn -[trim handleSend].
  destruct ((key =? "Enter") && negb shiftKey && negb (isComposing (page w)));
    cbn -[trim handleSend]; [|apply world_eta].
  destruct (isWaitingResponse (page w)) eqn:Hw; cbn -[trim handleSend].
  - rewrite handleSend_skip by now right. cbn. reflexivity.
  - unfold truthy. destruct (String.eqb_spec (trim (inputValue (page w))) "") as [Hm|Hm];
      cbn -[trim handleSend]; [|reflexivity].
    rewrite handleSend_skip by now left. reflexivity.
Qed.

Lemma step_change (e : event) (w : world) :
  Forall (genuine P) (tasks w) -> change P (page w) e (page (step P e w)).
Proof.
  intros Hg. destruct e as [| |v| | |key shiftKey|i o|i o].
  - cbn [step]. destruct (sendDisabled (page w)); [constructor|].
    now apply handleSend_change.
  - rewrite step_newChat. constructor.
  - rewrite step_input. constructor.
  - rewrite step_compositionStart. constructor.
  - rewrite step_compositionEnd. constructor.
  - rewrite step_keydown. destruct (keydown_prevented key shiftKey (page w));
      [now apply handleSend_change | constructor].
  - destruct (nth_error (tasks w) i) as [t|] eqn:Ht;
      [|cbn [step]; rewrite Ht; constructor].
    assert (Hgt : genuine P t).
    { rewrite Forall_forall in Hg. apply Hg. eapply nth_error_In. exact Ht. }
    destruct Hgt as [Hl [E|E]]; rewrite E in Ht.
    + destruct (origin_of t) eqn:Ho; try congruence.
      * rewrite (settle_session_fetch P w i InitializeSession o eq_refl Ht).
        destruct o; [constructor | now apply ch_session_rejected].
      * rewrite (settle_send_fetch P w i o Ht).
        destruct o as [[[|]]|x]; cbn [ok page];
          [constructor | now apply ch_send_failed | now apply ch_send_failed].
      * rewrite (settle_session_fetch P w i HandleNewChat o eq_refl Ht).
        destruct o; [constructor | now apply ch_session_rejected].
    + cbn [step]. rewrite Ht. cbn [json_task awaits]. constructor.
  - destruct (nth_error (tasks w) i) as [t|] eqn:Ht;
      [|cbn [step]; rewrite Ht; constructor].
    assert (Hgt : genuine P t).
    { rewrite Forall_forall in Hg. apply Hg. eapply nth_error_In. exact Ht. }
    destruct Hgt as [Hl [E|E]]; rewrite E in Ht.
    + cbn [step]. rewrite Ht. cbn [fetch_task awaits]. constructor.
    + destruct (origin_of t) eqn:Ho; try congruence.
      * rewrite (settle_session_json P w i InitializeSession o eq_refl Ht).
        now apply ch_session_body.
      * rewrite (settle_send_json P w i o Ht). apply ch_send_body.
      * rewrite (settle_session_json P w i HandleNewChat o eq_refl Ht).
        now apply ch_session_body.
Qed.

(** The tasks of a reachable world are suspensions of the three functions,
    and so are those of every world reached from it. *)
Lemma reachable_genuine (s0 : state) (w : world) :
  reachable P (boot P s0) w -> Forall (genuine P) (tasks w).
Proof.
  intros Hr.
  now destruct (reachable_invariant P (fun _ => True) s0 I (fun _ _ _ _ _ _ => I) w Hr).
Qed.

Lemma reachable_from_genuine (w0 w : world) :
  Forall (genuine P) (tasks w0) -> reachable P w0 w -> Forall (genuine P) (tasks w).
Proof.
  intros H0 Hr. induction Hr as [|w e Hr IH]; [exact H0|].
  eapply effect_genuine; [exact IH | now apply step_effect].
Qed.

(** A property of the page that the listed changes keep holds in every world
    reached from one in which it holds. *)
Lemma change_invariant (I : state -> Prop) (w0 w : world) :
  Forall (genuine P) (tasks w0) ->
  (forall s e s', I s -> change P s e s' -> I s') ->
  I (page w0) -> reachable P w0 w -> I (page w).
Proof.
  intros Hg Hstep H0 Hr. induction Hr as [|w e Hr IH]; [exact H0|].
  eapply Hstep; [exact IH|]. apply step_change.
  eapply reachable_from_genuine; eassumption.
Qed.

(** The fields a completed exchange leaves as they were. *)
Lemma send_result_frame (o : res json) (s : state) :
  inputValue (send_result P o s) = inputValue s
  /\ inputHeight (send_result P o s) = inputHeight s
  /\ isComposing (send_result P o s) = isComposing s
  /\ currentSessionId (send_result P o s) = currentSessionId s
  /\ requests (send_result P o s) = requests s
  /\ sendDisabled (send_result P o s)
     = negb (0 <? String.length (trim (inputValue s)))%nat
  /\ chatScrollTop (send_result P o s)
     = chat_scrollHeight P (chat (send_result P o s)).
Proof.
  unfold send_result. destruct o as [data|x]; [|cbn; now rewrite orb_false_r].
  destruct (member data "response") as [v|x]; [|cbn; now rewrite orb_false_r].
  destruct (render_value P v); cbn; now rewrite orb_false_r.
Qed.

Lemma session_result_frame (label : string) (o : res json) (s : state) :
  inputValue (session_result label o s) = inputValue s
  /\ inputHeight (session_result label o s) = inputHeight s
  /\ isComposing (session_result label o s) = isComposing s
  /\ sendDisabled (session_result label o s) = sendDisabled s
  /\ chatScrollTop (session_result label o s) = chatScrollTop s.
Proof.
  unfold session_result. destruct o as [data|]; [|now repeat split].
  now destruct (member data "session_id").
Qed.

Lemma change_button_ok (s s' : state) (e : event) :
  button_ok s -> change P s e s' -> button_ok s'.
Proof.
  unfold button_ok. intros H Hc.
  destruct Hc as [e| | | |e Hm Hw _ _| |i f x Hf|i f o Hf|i o x Hf|i o];
    try exact H; try reflexivity.
  - destruct (session_result_frame (label_of f) o s) as (-> & _ & _ & -> & _).
    destruct (session_result_same (label_of f) o s) as (_ & -> & _). exact H.
  - destruct (send_result_frame o s) as (-> & _ & _ & _ & _ & -> & _).
    rewrite waiting_send_result. now rewrite orb_false_r.
Qed.

Lemma change_waiting_disabled (s s' : state) (e : event) :
  (isWaitingResponse s = true -> sendDisabled s = true) ->
  change P s e s' ->
  isWaitingResponse s' = true -> sendDisabled s' = true.
Proof.
  intros H Hc.
  destruct Hc as [e| | | |e Hm Hw _ _| |i f x Hf|i f o Hf|i o x Hf|i o];
    try exact H; try (intros; reflexivity).
  - cbn. intros ->. apply orb_true_r.
  - cbn. intros ->. apply orb_true_r.
  - destruct (session_result_frame (label_of f) o s) as (_ & _ & _ & -> & _).
    destruct (session_result_same (label_of f) o s) as (_ & -> & _). exact H.
  - cbn. discriminate.
  - rewrite waiting_send_result. discriminate.
Qed.

Lemma change_height_ok (s s' : state) (e : event) :
  height_ok P s -> change P s e s' -> height_ok P s'.
Proof.
  unfold height_ok. intros H Hc.
  destruct Hc as [e| | | |e Hm Hw _ _| |i f x Hf|i f o Hf|i o x Hf|i o];
    try exact H; try reflexivity.
  - now destruct (session_result_frame (label_of f) o s) as (-> & -> & _).
  - now destruct (send_result_frame o s) as (-> & -> & _).
Qed.

Lemma change_composing (s s' : state) (e : event) :
  change P s e s' -> e <> CompositionEnd ->
  isComposing s = true -> isComposing s' = true.
Proof.
  intros Hc Hne H.
  destruct Hc as [e| | | |e Hm Hw _ _| |i f x Hf|i f o Hf|i o x Hf|i o];
    try exact H; try reflexivity; try congruence.
  - now destruct (session_result_frame (label_of f) o s) as (_ & _ & -> & _).
  - now destruct (send_result_frame o s) as (_ & _ & -> & _).
Qed.

Lemma change_scroll (s s' : state) (e : event) :
  change P s e s' ->
  chat s' = chat s
  \/ e = Click_newChatBtn
  \/ chatScrollTop s' = chat_scrollHeight P (chat s').
Proof.
  intros Hc.
  destruct Hc as [e| | | |e Hm Hw _ _| |i f x Hf|i f o Hf|i o x Hf|i o];
    try (now left); try (now right; left); try (now right; right).
  - left. now destruct (session_result_same (label_of f) o s).
  - right; right. now destruct (send_result_frame o s) as (_ & _ & _ & _ & _ & _ & ->).
Qed.

End Changes.

(** ** [trim] leaves no white space at either end *)

Lemma dropStart_cons (a : ascii) (r1 : list ascii) :
  dropStart (a :: r1) =
  if ws1 a then dropStart r1 else
  match r1 with
  | b :: r2 =>
      if ws2 a b then dropStart r2 else
      match r2 with
      | c :: r3 => if ws3 a b c then dropStart r3 else a :: r1
      | [] => a :: r1
      end
  | [] => a :: r1
  end.
Proof. destruct r1 as [|b [|c r3]]; reflexivity. Qed.

Lemma dropStartRev_cons (a : ascii) (r1 : list ascii) :
  dropStartRev (a :: r1) =
  if ws1 a then dropStartRev r1 else
  match r1 with
  | b :: r2 =>
      if ws2 b a then dropStartRev r2 else
      match r2 with
      | c :: r3 => if ws3 c b a then dropStartRev r3 else a :: r1
      | [] => a :: r1
      end
  | [] => a :: r1
  end.
Proof. destruct r1 as [|b [|c r3]]; reflexivity. Qed.

Lemma dropStart_fixed (l : list ascii) : starts_ws l = false -> dropStart l = l.
Proof.
  destruct l as [|a r1]; [reflexivity|]. rewrite dropStart_cons. cbn [starts_ws].
  destruct (ws1 a); [discriminate|]. destruct r1 as [|b r2]; [reflexivity|].
  destruct (ws2 a b); [discriminate|]. destruct r2 as [|c r3]; [reflexivity|].
  now destruct (ws3 a b c).
Qed.

Lemma dropStartRev_fixed (l : list ascii) : ends_ws l = false -> dropStartRev l = l.
Proof.
  destruct l as [|a r1]; [reflexivity|]. rewrite dropStartRev_cons. cbn [ends_ws].
  destruct (ws1 a); [discriminate|]. destruct r1 as [|b r2]; [reflexivity|].
  destruct (ws2 b a); [discriminate|]. destruct r2 as [|c r3]; [reflexivity|].
  now destruct (ws3 c b a).
Qed.

(** What is left starts with no white space and is the end of the text. *)
Lemma dropStart_spec (n : nat) (l : list ascii) :
  (List.length l <= n)%nat ->
  starts_ws (dropStart l) = false /\ exists p, l = p ++ dropStart l.
Proof.
  revert l. induction n as [|n IH]; intros l Hn.
  - destruct l; [|cbn in Hn; lia]. split; [reflexivity | now exists []].
  - destruct l as [|a r1]; [split; [reflexivity | now exists []]|].
    cbn [List.length] in Hn. rewrite dropStart_cons.
    destruct (ws1 a) eqn:E1.
    { destruct (IH r1 ltac:(lia)) as [H [p Hp]]. split; [exact H|].
      exists (a :: p). cbn. now rewrite <- Hp. }
    destruct r1 as [|b r2].
    { split; [cbn; now rewrite E1 | now exists []]. }
    cbn [List.length] in Hn. destruct (ws2 a b) eqn:E2.
    { destruct (IH r2 ltac:(lia)) as [H [p Hp]]. split; [exact H|].
      exists (a :: b :: p). cbn. now rewrite <- Hp. }
    destruct r2 as [|c r3].
    { split; [cbn; now rewrite E1, E2 | now exists []]. }
    cbn [List.length] in Hn. destruct (ws3 a b c) eqn:E3.
    { destruct (IH r3 ltac:(lia)) as [H [p Hp]]. split; [exact H|].
      exists (a :: b :: c :: p). cbn. now rewrite <- Hp. }
    split; [cbn; now rewrite E1, E2, E3 | now exists []].
Qed.

Lemma dropStartRev_spec (n : nat) (l : list ascii) :
  (List.length l <= n)%nat ->
  ends_ws (dropStartRev l) = false /\ exists p, l = p ++ dropStartRev l.
Proof.
  revert l. induction n as [|n IH]; intros l Hn.
  - destruct l; [|cbn in Hn; lia]. split; [reflexivity | now exists []].
  - destruct l as [|a r1]; [split; [reflexivity | now exists []]|].
    cbn [List.length] in Hn. rewrite dropStartRev_cons.
    destruct (ws1 a) eqn:E1.
    { destruct (IH r1 ltac:(lia)) as [H [p Hp]]. split; [exact H|].
      exists (a :: p). cbn. now rewrite <- Hp. }
    destruct r1 as [|b r2].
    { split; [cbn; now rewrite E1 | now exists []]. }
    cbn [List.length] in Hn. destruct (ws2 b a) eqn:E2.
    { destruct (IH r2 ltac:(lia)) as [H [p Hp]]. split; [exact H|].
      exists (a :: b :: p). cbn. now rewrite <- Hp. }
    destruct r2 as [|c r3].
    { split; [cbn; now rewrite E1, E2 | now exists []]. }
    cbn [List.length] in Hn. destruct (ws3 c b a) eqn:E3.
    { destruct (IH r3 ltac:(lia)) as [H [p Hp]]. split; [exact H|].
      exists (a :: b :: c :: p). cbn. now rewrite <- Hp. }
    split; [cbn; now rewrite E1, E2, E3 | now exists []].
Qed.

(** A text that starts with no white space keeps that when cut at the end. *)
Lemma starts_ws_prefix (l q : list ascii) :
  starts_ws (l ++ q) = false -> starts_ws l = false.
Proof.
  destruct l as [|a [|b [|c r]]]; [reflexivity | | |]; cbn [starts_ws app].
  - destruct (ws1 a); [discriminate | reflexivity].
  - destruct (ws1 a); [discriminate|]. destruct (ws2 a b); [discriminate|].
    reflexivity.
  - auto.
Qed.

(** The two ends of a trimmed text. *)
Lemma trim_ends (s : string) :
  starts_ws (list_ascii_of_string (trim s)) = false
  /\ ends_ws (rev (list_ascii_of_string (trim s))) = false.
Proof.
  unfold trim. rewrite list_ascii_of_string_of_list_ascii.
  set (l1 := dropStart (list_ascii_of_string s)).
  destruct (dropStart_spec _ (list_ascii_of_string s) (le_n _)) as [H1 _].
  fold l1 in H1.
  destruct (dropStartRev_spec _ (rev l1) (le_n _)) as [H2 [p Hp]].
  split.
  - apply (starts_ws_prefix _ (rev p)).
    rewrite <- rev_app_distr, <- Hp, rev_involutive. exact H1.
  - now rewrite rev_involutive.
Qed.

Lemma trim_idempotent (s : string) : trim (trim s) = trim s.
Proof.
  destruct (trim_ends s) as [H1 H2].
  unfold trim at 1.
  rewrite (dropStart_fixed _ H1), (dropStartRev_fixed _ H2), rev_involutive.
  apply string_of_list_ascii_of_string.
Qed.

(** ** Requests and rows of every reachable page *)

Section Shapes.

Variable P : platform.

Lemma script_request_chat (v : string) (sid : jsval) :
  trim v <> "" -> script_request (chat_request (trim v) sid).
Proof.
  intros H. right. exists (trim v), sid.
  split; [reflexivity|]. split; [exact H | apply trim_idempotent].
Qed.

Lemma effect_requests (w w' : world) (e : event) :
  Forall script_request (requests (page w)) -> effect P w e w' ->
  Forall script_request (requests (page w')).
Proof.
  intros H He.
  destruct He as [e|e s Hs|e Hm Hw| |i f o Hf Hn|i f o Hf Hn|i o Hn|i o Hn].
  - exact H.
  - cbn [page]. now rewrite (same_requests Hs).
  - cbn [page started requests]. apply Forall_app. split; [exact H|].
    constructor; [now apply script_request_chat | constructor].
  - cbn. apply Forall_app. split; [exact H|].
    constructor; [now left | constructor].
  - now destruct o.
  - cbn [page]. now destruct (session_result_same (label_of f) o (page w)) as (_ & _ & ->).
  - now destruct o as [[[|]]|].
  - cbn [page].
    now destruct (send_result_frame P o (page w)) as (_ & _ & _ & _ & -> & _).
Qed.

Lemma Forall_send_result (Q : row -> Prop) (o : res json) (s : state) :
  Forall Q (chat s) ->
  (forall b, safe_body P b -> Q (assistant_row b)) ->
  Forall Q (chat (send_result P o s)).
Proof.
  intros H Hq.
  assert (Hf : forall x s', Forall Q (chat s') -> Forall Q (chat (failed P x s'))).
  { intros x s' H'. rewrite chat_failed. apply Forall_app.
    split; [now apply Forall_remove_first|].
    constructor; [apply Hq, safe_render | constructor]. }
  assert (Hr : Forall Q (chat (indicator_removed s)))
    by (cbn; now apply Forall_remove_first).
  unfold send_result. destruct o as [data|x]; [|now apply Hf].
  destruct (member data "response") as [v|x]; [|now apply Hf].
  destruct (render_value P v) as [b|x] eqn:E; [|now apply Hf].
  cbn [answered chat]. apply Forall_app. split; [now apply Forall_remove_first|].
  constructor; [|constructor]. eapply Hq, safe_render_value. exact E.
Qed.

Lemma effect_rows (Q : row -> Prop) (w w' : world) (e : event) :
  (forall r, script_row P r -> Q r) ->
  Forall Q (chat (page w)) -> effect P w e w' -> Forall Q (chat (page w')).
Proof.
  intros Hq H He.
  destruct He as [e|e s Hs|e Hm Hw| |i f o Hf Hn|i f o Hf Hn|i o Hn|i o Hn].
  - exact H.
  - cbn [page]. now rewrite (same_chat Hs).
  - cbn [page started chat]. apply Forall_app.
    split; [now apply Forall_remove_first|].
    constructor; [|constructor; [|constructor]]; apply Hq.
    + right; left. exists (trim (inputValue (page w))).
      split; [reflexivity|]. split; [exact Hm | apply trim_idempotent].
    + now right; right; right.
  - cbn. constructor; [|constructor]. apply Hq. now left.
  - now destruct o.
  - cbn [page]. now destruct (session_result_same (label_of f) o (page w)) as (-> & _).
  - assert (Hf : forall x, Forall Q (chat (failed P x (page w)))).
    { intros x. rewrite chat_failed. apply Forall_app.
      split; [now apply Forall_remove_first|].
      constructor; [|constructor]. apply Hq. right; right; left.
      exists (render P apology). split; [reflexivity | apply safe_render]. }
    destruct o as [[[|]]|]; cbn [ok page]; [exact H | apply Hf | apply Hf].
  - cbn [page]. apply Forall_send_result; [exact H|].
    intros b Hb. apply Hq. right; right; left. now exists b.
Qed.

(** The stored identifier changes only with the body of a session
    response. *)
Lemma effect_session_id (w w' : world) (e : event) :
  effect P w e w' -> session_body_arrives e w = false ->
  currentSessionId (page w') = currentSessionId (page w).
Proof.
  intros He Ha.
  destruct He as [e|e s Hs|e Hm Hw| |i f o Hf Hn|i f o Hf Hn|i o Hn|i o Hn];
    try reflexivity.
  - exact (same_session Hs).
  - now destruct o.
  - cbn [session_body_arrives] in Ha. destruct o as [data|x]; [|reflexivity].
    rewrite Hn in Ha. cbn [json_task origin_of awaits] in Ha.
    rewrite Hf in Ha. destruct data; try discriminate Ha. reflexivity.
  - now destruct o as [[[|]]|].
  - cbn [page].
    now destruct (send_result_frame P o (page w)) as (_ & _ & _ & -> & _).
Qed.

End Shapes.

(** ** Lists of tasks *)

Lemma nth_error_drop_nth_before {A} (l : list A) (i j : nat) :
  (i < j)%nat -> nth_error (drop_nth j l) i = nth_error l i.
Proof.
  revert i j. induction l as [|a l IH]; intros i j H; [now destruct i, j|].
  destruct j; [lia|]. destruct i; [reflexivity|]. cbn. apply IH. lia.
Qed.

Lemma nth_error_drop_nth_after {A} (l : list A) (i j : nat) :
  (i <= j)%nat -> nth_error (drop_nth i l) j = nth_error l (S j).
Proof.
  revert i j. induction l as [|a l IH]; intros i j H; [now destruct i, j|].
  destruct i; [reflexivity|]. destruct j; [lia|]. cbn. apply IH. lia.
Qed.

(** ** The first match among longer rows *)



Lemma length_zero_string (s : string) : String.length s = 0%nat -> s = "".
Proof. now destruct s. Qed.

(** While a composition is going on, it goes on until [compositionend]. *)
Lemma composing_steps (P : platform) (es : list event) (w : world) :
  Forall (genuine P) (tasks w) ->
  Forall (fun e => e <> CompositionEnd) es ->
  isComposing (page w) = true ->
  isComposing (page (steps P es w)) = true.
Proof.
  unfold steps. revert w. induction es as [|e es IH]; intros w Hg Hes Hc; [exact Hc|].
  cbn [fold_left]. inversion Hes as [|e' es' Hne Hes']; subst. apply IH.
  - eapply effect_genuine; [exact Hg | now apply step_effect].
  - exact Hes'.
  - eapply change_composing; [now apply step_change | exact Hne | exact Hc].
Qed.

(** The task a settlement of a session request finds. *)
Lemma settles_session_task (P : platform) (w : world) (e : event) :
  Forall (genuine P) (tasks w) -> settles_session e w = true ->
  (exists i o f, e = FetchSettled i o /\ is_session f = true
                 /\ nth_error (tasks w) i = Some (fetch_task P f))
  \/ (exists i o f, e = JsonSettled i o /\ is_session f = true
                    /\ nth_error (tasks w) i = Some (json_task P f)).
Proof.
  intros Hg Hs. rewrite Forall_forall in Hg.
  destruct e as [| |v| | |key shiftKey|i o|i o]; try discriminate Hs;
    cbn [settles_session] in Hs;
    destruct (nth_error (tasks w) i) as [[f a]|] eqn:Ht; try discriminate Hs;
    destruct a as [k|k]; try discriminate Hs;
    destruct (Hg _ (nth_error_In _ _ Ht)) as [_ [E|E]];
    cbn [origin_of fetch_task json_task] in E; try (destruct f; discriminate E).
  - left. exists i, o, f. split; [reflexivity|]. split; [exact Hs|]. now rewrite Ht, E.
  - right. exists i, o, f. split; [reflexivity|]. split; [exact Hs|]. now rewrite Ht, E.
Qed.

(** ** Exchanges one after another *)





(** * Further properties of the script *)

(** X1.  In every world the page can reach, whatever the document, the send
    button is disabled while [isWaitingResponse] holds: [handleSend] disables
    it before it suspends (line 120 and 121), and every listener that sets
    the button meanwhile disables it again (line 80). *)
Theorem send_button_disabled_while_waiting (P : platform) (chat0 : list row)
    (value0 : string) (disabled0 : bool) (height0 scrollTop0 : Z) (w : world) :
  reachable P (boot P (loaded chat0 value0 disabled0 height0 scrollTop0)) w ->
  isWaitingResponse (page w) = true ->
  sendDisabled (page w) = true.
Proof.
  intros Hr.
  apply (change_invariant P
           (fun s => isWaitingResponse s = true -> sendDisabled s = true)
           (boot P (loaded chat0 value0 disabled0 height0 scrollTop0)) w).
  - apply (reachable_genuine P _ _ (reach_start P _)).
  - intros s e s'. apply change_waiting_disabled.
  - discriminate.
  - exact Hr.
Qed.

(** X1 on the example page: the user keeps typing while the reply is
    awaited. *)
Lemma send_button_disabled_while_waiting_witness :
  let w := steps demo [Click_sendBtn; InputEvent "and then?"; CompositionEnd] asked in
  isWaitingResponse (page w) = true
  /\ inputValue (page w) = "and then?"
  /\ sendDisabled (page w) = true.
Proof.
  assert (Hr : reachable demo (boot demo (loaded [WelcomeMessage] "" true 24 0))
                 (steps demo [Click_sendBtn; InputEvent "and then?"; CompositionEnd]
                    asked)).
  { apply reachable_steps. apply reach_step. apply reach_start. }
  split; [reflexivity|]. split; [reflexivity|].
  exact (send_button_disabled_while_waiting demo _ _ _ _ _ _ Hr eq_refl).
Defined.

(** X2.  The send button follows the text and the busy flag.  After an
    [input] or a [compositionend] event the button is disabled exactly when
    the trimmed text is empty or a send is pending; and once the button
    agrees in that way, it agrees in every later world, whatever happens:
    sends, replies, failures, resets.  The handler of [DOMContentLoaded] does
    not set the button, so until the first such event the button is as the
    document delivers it (last part). *)
Theorem send_button_follows_text (P : platform) (chat0 : list row)
    (value0 : string) (disabled0 : bool) (height0 scrollTop0 : Z) (w0 : world) :
  reachable P (boot P (loaded chat0 value0 disabled0 height0 scrollTop0)) w0 ->
  (forall v, button_ok (page (step P (InputEvent v) w0)))
  /\ button_ok (page (step P CompositionEnd w0))
  /\ (button_ok (page w0) ->
      forall w, reachable P w0 w -> button_ok (page w))
  /\ sendDisabled
       (page (boot P (loaded chat0 value0 disabled0 height0 scrollTop0)))
     = disabled0.
Proof.
  intros Hr. split; [|split; [|split]].
  - intros v. reflexivity.
  - reflexivity.
  - intros H0 w Hw.
    apply (change_invariant P button_ok w0 w); [| |exact H0|exact Hw].
    + eapply reachable_genuine. exact Hr.
    + intros s e s'. apply change_button_ok.
  - reflexivity.
Qed.

(** X2 on the example page: the text typed during an exchange enables the
    button when the reply has arrived. *)
Lemma send_button_follows_text_witness :
  let w := steps demo [Click_sendBtn; InputEvent "and then?";
                       FetchSettled 1 (Val {| ok := true |});
                       JsonSettled 1 (Val (JObj [("response", JStr "hi")]))] asked in
  button_ok (page asked)
  /\ button_ok (page w)
  /\ sendDisabled (page w) = false.
Proof.
  assert (Hr : reachable demo (boot demo (loaded [WelcomeMessage] "" true 24 0))
                 asked)
    by (apply reach_step; apply reach_start).
  destruct (send_button_follows_text demo _ _ _ _ _ _ Hr) as (_ & _ & H & _).
  split; [reflexivity|]. split; [|reflexivity].
  apply (H eq_refl). apply reachable_steps. apply reach_start.
Defined.

(** X3.  In every world the page can reach, the height of the input field is
    the smaller of its [scrollHeight] for the current text and 200 pixels
    (line 74): it is set on load, after every edit and when [handleSend]
    clears the field.  In particular it never exceeds 200. *)
Theorem textarea_height_is_capped (P : platform) (chat0 : list row)
    (value0 : string) (disabled0 : bool) (height0 scrollTop0 : Z) (w : world) :
  reachable P (boot P (loaded chat0 value0 disabled0 height0 scrollTop0)) w ->
  inputHeight (page w) = Z.min (input_scrollHeight P (inputValue (page w))) 200
  /\ (inputHeight (page w) <= 200)%Z.
Proof.
  intros Hr.
  assert (H : height_ok P (page w)).
  { apply (change_invariant P (height_ok P)
             (boot P (loaded chat0 value0 disabled0 height0 scrollTop0)) w).
    - apply (reachable_genuine P _ _ (reach_start P _)).
    - intros s e s'. apply change_height_ok.
    - reflexivity.
    - exact Hr. }
  split; [exact H|]. rewrite H. apply Z.le_min_r.
Qed.

(** X3 on a page whose input field grows by a line of 24 pixels for every
    eight characters. *)
Lemma textarea_height_is_capped_witness :
  let question := "a long question that takes many lines of the input field" in
  let w := step growing (InputEvent question)
             (boot growing (loaded [WelcomeMessage] "" true 999 0)) in
  let w2 := step growing (InputEvent (question ++ ", and more")%string) w in
  input_scrollHeight growing (inputValue (page w)) = 192%Z
  /\ inputHeight (page w) = 192%Z
  /\ input_scrollHeight growing (inputValue (page w2)) = 216%Z
  /\ inputHeight (page w2) = 200%Z.
Proof.
  split; [reflexivity|]. split; [|split; [reflexivity|]].
  - apply (textarea_height_is_capped growing [WelcomeMessage] "" true 999 0).
    apply reach_step. apply reach_start.
  - apply (textarea_height_is_capped growing [WelcomeMessage] "" true 999 0).
    apply reach_step. apply reach_step. apply reach_start.
Defined.




(** X6.  The key listener of line 58 to 65 does nothing but for Enter without
    Shift outside a composition, and then it does what a call of [handleSend]
    does: the test of line 61 repeats the one [handleSend] starts with.  A
    click on the send button, when it is enabled, is the same call. *)
Theorem enter_key_is_send (P : platform) (key : string) (shiftKey : bool)
    (w : world) :
  step P (Keydown key shiftKey) w
  = (if keydown_prevented key shiftKey (page w)
     then call HandleSend (handleSend P) w
     else w)
  /\ step P Click_sendBtn w
     = (if sendDisabled (page w) then w else call HandleSend (handleSend P) w)
  /\ keydown_prevented key true (page w) = false
  /\ keydown_prevented "Enter" false (page w) = negb (isComposing (page w)).
Proof.
  split; [apply step_keydown|]. split; [reflexivity|]. split; [|reflexivity].
  unfold keydown_prevented. cbn [negb]. now rewrite andb_false_r.
Qed.

(** X7.  Between [compositionstart] and [compositionend] no key sends a
    message: whatever events come in between -- edits, clicks, resets,
    settlements of requests -- the composition flag stays up and a key
    event, Enter included, leaves the world as it is. *)
Theorem no_send_during_composition (P : platform) (chat0 : list row)
    (value0 : string) (disabled0 : bool) (height0 scrollTop0 : Z) (w : world)
    (es : list event) (key : string) (shiftKey : bool) :
  reachable P (boot P (loaded chat0 value0 disabled0 height0 scrollTop0)) w ->
  Forall (fun e => e <> CompositionEnd) es ->
  let w1 := steps P es (step P CompositionStart w) in
  isComposing (page w1) = true
  /\ step P (Keydown key shiftKey) w1 = w1.
Proof.
  intros Hr Hes w1.
  assert (Hc : isComposing (page w1) = true).
  { apply composing_steps; [|exact Hes|reflexivity].
    eapply reachable_genuine. apply reach_step. exact Hr. }
  split; [exact Hc|].
  rewrite step_keydown. unfold keydown_prevented. rewrite Hc.
  cbn [negb]. now rewrite andb_false_r.
Qed.

(** X7 on the example page: Enter confirms a candidate of the input method
    and sends nothing. *)
Lemma no_send_during_composition_witness :
  let w1 := steps demo [InputEvent "ni hao"; Keydown "Enter" false]
              (step demo CompositionStart fresh) in
  requests (page w1) = [new_session_request]
  /\ isComposing (page w1) = true
  /\ step demo (Keydown "Enter" false) w1 = w1.
Proof.
  split; [reflexivity|].
  apply (no_send_during_composition demo [WelcomeMessage] "" true 24 0 fresh
           [InputEvent "ni hao"; Keydown "Enter" false] "Enter" false).
  - apply reach_start.
  - repeat constructor; discriminate.
Defined.

(** X8.  Every request the page has sent, in every world it can reach, is
    either the request for a session or a chat request whose message is not
    empty and has no white space at either end: [handleSend] sends the
    trimmed text, and only when it is not empty. *)
Theorem chat_messages_are_trimmed (P : platform) (chat0 : list row)
    (value0 : string) (disabled0 : bool) (height0 scrollTop0 : Z) (w : world) :
  reachable P (boot P (loaded chat0 value0 disabled0 height0 scrollTop0)) w ->
  Forall script_request (requests (page w)).
Proof.
  intros Hr.
  apply (reachable_invariant P (fun w => Forall script_request (requests (page w)))
           (loaded chat0 value0 disabled0 height0 scrollTop0)); [| |exact Hr].
  - rewrite boot_eq. cbn. constructor; [now left | constructor].
  - intros w0 e w' _. apply effect_requests.
Qed.

(** X8 on the example page. *)
Lemma chat_messages_are_trimmed_witness :
  requests (page (step demo Click_sendBtn asked))
  = [new_session_request; chat_request "hello" (Some (JStr "default"))]
  /\ Forall script_request (requests (page (step demo Click_sendBtn asked))).
Proof.
  split; [reflexivity|].
  apply (chat_messages_are_trimmed demo [WelcomeMessage] "" true 24 0).
  apply reach_step. apply reach_step. apply reach_start.
Defined.

(** X9.  Of two session requests whose bodies are awaited, the one whose
    body arrives last decides the stored identifier, whichever was sent
    first: a reply to an earlier request that arrives late replaces the
    identifier of the later one. *)
Theorem last_session_reply_wins (P : platform) (w : world) (i j : nat)
    (f g : origin) (d1 d2 : json) (v1 v2 : jsval) :
  (i < j)%nat ->
  is_session f = true -> is_session g = true ->
  nth_error (tasks w) i = Some (json_task P f) ->
  nth_error (tasks w) j = Some (json_task P g) ->
  member d1 "session_id" = Val v1 ->
  member d2 "session_id" = Val v2 ->
  currentSessionId
    (page (steps P [JsonSettled i (Val d1); JsonSettled (j - 1) (Val d2)] w)) = v2
  /\ currentSessionId
       (page (steps P [JsonSettled j (Val d2); JsonSettled i (Val d1)] w)) = v1.
Proof.
  intros Hij Hf Hg Hi Hj H1 H2. unfold steps. cbn [fold_left]. split.
  - rewrite (settle_session_json P w i f _ Hf Hi).
    rewrite (settle_session_json P _ (j - 1) g _ Hg).
    + cbn [page session_result]. now rewrite H2.
    + cbn [tasks]. rewrite nth_error_drop_nth_after by lia.
      now replace (S (j - 1)) with j by lia.
  - rewrite (settle_session_json P w j g _ Hg Hj).
    rewrite (settle_session_json P _ i f _ Hf).
    + cbn [page session_result]. now rewrite H1.
    + cbn [tasks]. now rewrite nth_error_drop_nth_before.
Qed.

(** X9 on the example page: the user starts a new chat before the reply to
    the request made on load has arrived, and that reply arrives last. *)
Lemma last_session_reply_wins_witness :
  let w := steps demo [Click_newChatBtn; FetchSettled 0 (Val {| ok := true |});
                       FetchSettled 0 (Val {| ok := true |})] fresh in
  currentSessionId
    (page (steps demo [JsonSettled 1 (Val (JObj [("session_id", JStr "new-chat")]));
                       JsonSettled 0 (Val (JObj [("session_id", JStr "on-load")]))] w))
  = Some (JStr "on-load")
  /\ currentSessionId
       (page (steps demo [JsonSettled 0 (Val (JObj [("session_id", JStr "on-load")]));
                          JsonSettled 0 (Val (JObj [("session_id", JStr "new-chat")]))] w))
     = Some (JStr "new-chat").
Proof.
  destruct (last_session_reply_wins demo
              (steps demo [Click_newChatBtn; FetchSettled 0 (Val {| ok := true |});
                           FetchSettled 0 (Val {| ok := true |})] fresh)
              0 1 InitializeSession HandleNewChat
              (JObj [("session_id", JStr "on-load")])
              (JObj [("session_id", JStr "new-chat")])
              (Some (JStr "on-load")) (Some (JStr "new-chat"))
              (le_n 1) eq_refl eq_refl eq_refl eq_refl eq_refl eq_refl) as [A B].
  split; [exact B | exact A].
Defined.

(** X10.  Every row of a reachable view is a row of the document or a row as
    the script builds it: the welcome block, a user row, an assistant row or
    the indicator.  A user row holds the trimmed, non-empty text of the
    input field as text, never as markup, whether or not the Markdown
    renderer and the sanitizer are present, and carries the user's avatar;
    an assistant row holds text or markup out of the sanitizer. *)
Theorem rows_are_script_rows (P : platform) (chat0 : list row)
    (value0 : string) (disabled0 : bool) (height0 scrollTop0 : Z) (w : world) :
  reachable P (boot P (loaded chat0 value0 disabled0 height0 scrollTop0)) w ->
  Forall (fun r => In r chat0 \/ script_row P r) (chat (page w)).
Proof.
  intros Hr.
  apply (reachable_invariant P
           (fun w => Forall (fun r => In r chat0 \/ script_row P r) (chat (page w)))
           (loaded chat0 value0 disabled0 height0 scrollTop0)); [| |exact Hr].
  - rewrite boot_eq. cbn. apply Forall_forall. now left.
  - intros w0 e w' _. apply effect_rows. now right.
Qed.

(** X10 on the example page, for a text that would be markup. *)
Lemma rows_are_script_rows_witness :
  let w := step demo Click_sendBtn (step demo (InputEvent " <b>hello</b> ") fresh) in
  chat (page w) = [user_row "<b>hello</b>"; Row loading_row]
  /\ Forall (fun r => In r [WelcomeMessage] \/ script_row demo r) (chat (page w)).
Proof.
  split; [reflexivity|].
  apply (rows_are_script_rows demo [WelcomeMessage] "" true 24 0).
  apply reach_step. apply reach_step. apply reach_start.
Defined.

(** X11.  Whenever a step changes the rows, the view is scrolled to the
    bottom of the new rows (line 180 and 203), the reset excepted: a click on
    the new-chat button replaces the rows and assigns no scroll position. *)
Theorem scroll_follows_rows (P : platform) (chat0 : list row)
    (value0 : string) (disabled0 : bool) (height0 scrollTop0 : Z) (w : world)
    (e : event) :
  reachable P (boot P (loaded chat0 value0 disabled0 height0 scrollTop0)) w ->
  (chat (page (step P e w)) = chat (page w)
   \/ e = Click_newChatBtn
   \/ chatScrollTop (page (step P e w))
      = chat_scrollHeight P (chat (page (step P e w))))
  /\ chatScrollTop (page (step P Click_newChatBtn w)) = chatScrollTop (page w).
Proof.
  intros Hr. split; [|reflexivity].
  apply change_scroll. apply step_change. eapply reachable_genuine. exact Hr.
Qed.

(** X11 on the example page: after the send, the view is scrolled below the
    two rows. *)
Lemma scroll_follows_rows_witness :
  chatScrollTop (page (step demo Click_sendBtn asked)) = 120%Z.
Proof.
  assert (Hr : reachable demo (boot demo (loaded [WelcomeMessage] "" true 24 0))
                 asked)
    by (apply reach_step; apply reach_start).
  destruct (scroll_follows_rows demo _ _ _ _ _ asked Click_sendBtn Hr)
    as [[H|[H|H]] _].
  - discriminate H.
  - discriminate H.
  - rewrite H. reflexivity.
Defined.



(** X13.  The stored session identifier changes at one kind of event only:
    the arrival of the body of a session response that parses to something
    other than [null]; it then becomes that body's [session_id] member,
    [undefined] when there is none.  No send, reply, failure, edit or reset
    touches it. *)
Theorem session_id_changes_with_session_body (P : platform) (chat0 : list row)
    (value0 : string) (disabled0 : bool) (height0 scrollTop0 : Z) (w : world)
    (e : event) :
  reachable P (boot P (loaded chat0 value0 disabled0 height0 scrollTop0)) w ->
  (session_body_arrives e w = false ->
   currentSessionId (page (step P e w)) = currentSessionId (page w))
  /\ (session_body_arrives e w = true ->
      exists i data,
        e = JsonSettled i (Val data)
        /\ member data "session_id" = Val (currentSessionId (page (step P e w)))).
Proof.
  intros Hr. pose proof (reachable_genuine P _ _ Hr) as Hg. split.
  - intros Ha. eapply effect_session_id; [now apply step_effect | exact Ha].
  - intros Ha.
    destruct e as [| |v| | |key shiftKey|i o|i o]; try discriminate Ha.
    destruct o as [data|x]; [|discriminate Ha].
    exists i, data. split; [reflexivity|].
    assert (Hs : settles_session (JsonSettled i (Val data)) w = true).
    { cbn [session_body_arrives] in Ha. cbn [settles_session].
      destruct (nth_error (tasks w) i) as [[f [k|k]]|]; try discriminate Ha.
      now apply andb_true_iff in Ha as [Ha _]. }
    destruct (settles_session_task P w _ Hg Hs)
      as [(j & o & f & E & _)|(j & o & f & E & Hf & Hn)]; [discriminate E|].
    injection E as <- _.
    rewrite (settle_session_json P w i f _ Hf Hn). cbn [page session_result].
    cbn [session_body_arrives] in Ha. rewrite Hn in Ha.
    cbn [json_task origin_of awaits] in Ha. rewrite Hf in Ha.
    destruct data as [| | | | |ms]; try discriminate Ha; reflexivity.
Qed.

(** X13 on the example page: a send and a reset leave the identifier, the
    body of the reply to the reset replaces it. *)
Lemma session_id_changes_with_session_body_witness :
  let w := steps demo [InputEvent "hi"; Click_sendBtn; Click_newChatBtn;
                       FetchSettled 1 (Val {| ok := true |})] in_session in
  currentSessionId (page w) = Some (JStr "abc")
  /\ currentSessionId
       (page (step demo (JsonSettled 1 (Val (JObj [("session_id", JStr "xyz")]))) w))
     = Some (JStr "xyz").
Proof.
  assert (Hr : reachable demo (boot demo (loaded [WelcomeMessage] "" true 24 0))
                 (steps demo [InputEvent "hi"; Click_sendBtn; Click_newChatBtn;
                              FetchSettled 1 (Val {| ok := true |})] in_session)).
  { apply reachable_steps. unfold in_session, settle_session.
    apply reachable_steps. apply reach_start. }
  split; [reflexivity|].
  destruct (session_id_changes_with_session_body demo _ _ _ _ _ _
              (JsonSettled 1 (Val (JObj [("session_id", JStr "xyz")]))) Hr)
    as [_ H].
  destruct (H eq_refl) as (i & data & E & Hm).
  injection E as <- <-.
  exact (f_equal (fun r => match r with Val v => v | Exn _ => undefined end)
           (eq_sym Hm)).
Defined.

(** X14.  The reply to a session request, good or bad, never shows: when a
    promise of [initializeSession] or [handleNewChat] settles, the rows, the
    scroll position, the input field, the send button, the busy flag and the
    requests are as before and as many sends are in flight; the console gains
    at most one entry. *)
Theorem session_replies_leave_the_view (P : platform) (chat0 : list row)
    (value0 : string) (disabled0 : bool) (height0 scrollTop0 : Z) (w : world)
    (e : event) :
  reachable P (boot P (loaded chat0 value0 disabled0 height0 scrollTop0)) w ->
  settles_session e w = true ->
  let w' := step P e w in
  chat (page w') = chat (page w)
  /\ chatScrollTop (page w') = chatScrollTop (page w)
  /\ inputValue (page w') = inputValue (page w)
  /\ sendDisabled (page w') = sendDisabled (page w)
  /\ isWaitingResponse (page w') = isWaitingResponse (page w)
  /\ requests (page w') = requests (page w)
  /\ pending_sends w' = pending_sends w
  /\ (console (page w') = console (page w)
      \/ exists label x, console (page w') = console (page w) ++ [(label, x)]).
Proof.
  intros Hr Hs w'.
  pose proof (reachable_genuine P _ _ Hr) as Hg.
  assert (Hp : isWaitingResponse (page w') = isWaitingResponse (page w) ->
               pending_sends w' = pending_sends w).
  { intros Hb.
    pose proof (reachable_one_send P _ _ _ _ _ w Hr) as H1.
    pose proof (reachable_one_send P _ _ _ _ _ w' (reach_step P _ w e Hr)) as H2.
    unfold one_send in H1, H2. now rewrite H1, H2, Hb. }
  assert (Hlog : forall label x ts,
            w' = {| page := log_error label x (page w); tasks := ts |} ->
            chat (page w') = chat (page w)
            /\ chatScrollTop (page w') = chatScrollTop (page w)
            /\ inputValue (page w') = inputValue (page w)
            /\ sendDisabled (page w') = sendDisabled (page w)
            /\ isWaitingResponse (page w') = isWaitingResponse (page w)
            /\ requests (page w') = requests (page w)
            /\ pending_sends w' = pending_sends w
            /\ (console (page w') = console (page w)
                \/ exists label x, console (page w') = console (page w) ++ [(label, x)])).
  { intros label x ts E.
    repeat (split; [try (apply Hp); rewrite E; reflexivity|]).
    right. exists label, x. now rewrite E. }
  assert (Hsame : forall ts,
            w' = {| page := page w; tasks := ts |} ->
            chat (page w') = chat (page w)
            /\ chatScrollTop (page w') = chatScrollTop (page w)
            /\ inputValue (page w') = inputValue (page w)
            /\ sendDisabled (page w') = sendDisabled (page w)
            /\ isWaitingResponse (page w') = isWaitingResponse (page w)
            /\ requests (page w') = requests (page w)
            /\ pending_sends w' = pending_sends w
            /\ (console (page w') = console (page w)
                \/ exists label x, console (page w') = console (page w) ++ [(label, x)])).
  { intros ts E.
    repeat (split; [try (apply Hp); rewrite E; reflexivity|]).
    left. now rewrite E. }
  destruct (settles_session_task P w e Hg Hs)
    as [(i & o & f & -> & Hf & Hn)|(i & o & f & -> & Hf & Hn)].
  - pose proof (settle_session_fetch P w i f o Hf Hn) as E. fold w' in E.
    destruct o as [r|x]; [eapply Hsame | eapply Hlog]; exact E.
  - pose proof (settle_session_json P w i f o Hf Hn) as E. fold w' in E.
    unfold session_result in E. destruct o as [data|x]; [|eapply Hlog; exact E].
    destruct (member data "session_id") as [v|x]; [|eapply Hlog; exact E].
    repeat (split; [try (apply Hp); rewrite E; reflexivity|]).
    left. now rewrite E.
Qed.

(** X14 on the example page: the request made on load is rejected. *)
Lemma session_replies_leave_the_view_witness :
  let w' := step demo (FetchSettled 0 (Exn (Reason "Failed to fetch"))) asked in
  chat (page w') = [WelcomeMessage]
  /\ sendDisabled (page w') = false
  /\ console (page w') = [("初始化会话失败:", Reason "Failed to fetch")].
Proof.
  assert (Hr : reachable demo (boot demo (loaded [WelcomeMessage] "" true 24 0))
                 asked)
    by (apply reach_step; apply reach_start).
  destruct (session_replies_leave_the_view demo _ _ _ _ _ asked
              (FetchSettled 0 (Exn (Reason "Failed to fetch"))) Hr eq_refl)
    as (Hc & _ & _ & Hd & _).
  split; [exact Hc|]. split; [exact Hd | reflexivity].
Defined.

(** X15.  When the send button agrees with the text and the busy flag, and
    no composition is going on, the Enter key and a click on the button do
    the same: both send, or neither does. *)
Theorem enter_and_click_agree (P : platform) (w : world) :
  button_ok (page w) ->
  isComposing (page w) = false ->
  step P (Keydown "Enter" false) w = step P Click_sendBtn w.
Proof.
  intros Hb Hc. rewrite step_keydown. unfold keydown_prevented. rewrite Hc.
  cbn [String.eqb Ascii.eqb Bool.eqb negb andb]. cbn [step].
  destruct (sendDisabled (page w)) eqn:Hd; [|reflexivity].
  apply call_handleSend_skip. unfold button_ok in Hb. rewrite Hd in Hb.
  symmetry in Hb. apply orb_true_iff in Hb as [Hb|Hb]; [left | now right].
  apply negb_true_iff, Nat.ltb_ge in Hb. apply length_zero_string. lia.
Qed.

(** X15 on the example page. *)
Lemma enter_and_click_agree_witness :
  step demo (Keydown "Enter" false) asked = step demo Click_sendBtn asked
  /\ requests (page (step demo (Keydown "Enter" false) asked))
     = [new_session_request; chat_request "hello" (Some (JStr "default"))].
Proof.
  split; [|reflexivity].
  apply (enter_and_click_agree demo asked); reflexivity.
Defined.



(** X17.  What [initializeSession] and [handleNewChat] treat as a failure.
    When one of their promises settles: a rejected request, a body that does
    not parse and a [null] body leave the stored identifier as it was and
    log exactly one error, under the function's label; a response of any
    status, and any other body, log nothing. *)
Theorem session_failures_are_logged (P : platform) (chat0 : list row)
    (value0 : string) (disabled0 : bool) (height0 scrollTop0 : Z) (w : world)
    (e : event) :
  reachable P (boot P (loaded chat0 value0 disabled0 height0 scrollTop0)) w ->
  settles_session e w = true ->
  let w' := step P e w in
  match session_failure e with
  | Some x =>
      currentSessionId (page w') = currentSessionId (page w)
      /\ (console (page w') = console (page w) ++ [("初始化会话失败:", x)]
          \/ console (page w') = console (page w) ++ [("创建新会话失败:", x)])
  | None => console (page w') = console (page w)
  end.
Proof.
  intros Hr Hs w'.
  pose proof (reachable_genuine P _ _ Hr) as Hg.
  assert (Hlog : forall f x ts,
            is_session f = true ->
            w' = {| page := log_error (label_of f) x (page w); tasks := ts |} ->
            currentSessionId (page w') = currentSessionId (page w)
            /\ (console (page w') = console (page w) ++ [("初始化会话失败:", x)]
                \/ console (page w') = console (page w) ++ [("创建新会话失败:", x)])).
  { intros f x ts Hf E. rewrite E. split; [reflexivity|].
    destruct f; try discriminate Hf; [now left | now right]. }
  destruct (settles_session_task P w e Hg Hs)
    as [(i & o & f & -> & Hf & Hn)|(i & o & f & -> & Hf & Hn)].
  - pose proof (settle_session_fetch P w i f o Hf Hn) as E. fold w' in E.
    destruct o as [r|x]; cbn [session_failure]; [now rewrite E|].
    eapply Hlog; eassumption.
  - pose proof (settle_session_json P w i f o Hf Hn) as E. fold w' in E.
    unfold session_result in E.
    destruct o as [data|x]; cbn [session_failure]; [|eapply Hlog; eassumption].
    destruct data; cbn [member] in E; try (now rewrite E).
    eapply Hlog; eassumption.
Qed.

(** X17 on the example page: the body of the first reply is not JSON. *)
Lemma session_failures_are_logged_witness :
  let w := step demo (FetchSettled 0 (Val {| ok := true |})) fresh in
  let w' := step demo (JsonSettled 0 (Exn (Reason "Unexpected token <"))) w in
  currentSessionId (page w') = Some (JStr "default")
  /\ console (page w') = [("初始化会话失败:", Reason "Unexpected token <")].
Proof.
  assert (Hr : reachable demo (boot demo (loaded [WelcomeMessage] "" true 24 0))
                 (step demo (FetchSettled 0 (Val {| ok := true |})) fresh))
    by (apply reach_step; apply reach_start).
  destruct (session_failures_are_logged demo _ _ _ _ _ _
              (JsonSettled 0 (Exn (Reason "Unexpected token <"))) Hr eq_refl)
    as [A _].
  split; [exact A | reflexivity].
Defined.

(** X18.  The reply to a send never touches what the user is typing.  When a
    promise of [handleSend] settles, with whatever outcome, the text and the
    height of the input field, the composition flag, the stored session
    identifier and the requests are as before; and when that settlement
    completes [handleSend], the send button is enabled exactly when the text
    typed meanwhile is not blank. *)
Theorem send_replies_leave_the_input (P : platform) (chat0 : list row)
    (value0 : string) (disabled0 : bool) (height0 scrollTop0 : Z) (w : world)
    (e : event) :
  reachable P (boot P (loaded chat0 value0 disabled0 height0 scrollTop0)) w ->
  settles_send e w = true ->
  let w' := step P e w in
  inputValue (page w') = inputValue (page w)
  /\ inputHeight (page w') = inputHeight (page w)
  /\ isComposing (page w') = isComposing (page w)
  /\ currentSessionId (page w') = currentSessionId (page w)
  /\ requests (page w') = requests (page w)
  /\ (isWaitingResponse (page w') = false ->
      sendDisabled (page w')
      = negb (0 <? String.length (trim (inputValue (page w))))%nat).
Proof.
  intros Hr Hs w'.
  pose proof (reachable_genuine P _ _ Hr) as Hg.
  assert (Hb : isWaitingResponse (page w) = true).
  { pose proof (reachable_one_send P _ _ _ _ _ w Hr) as H1. unfold one_send in H1.
    destruct (isWaitingResponse (page w)); [reflexivity|]. exfalso.
    unfold pending_sends in H1. cbn [flag] in H1.
    destruct (settles_send_task P w e Hg Hs)
      as [(i & o & _ & Hn)|(i & o & _ & Hn)];
      pose proof (filter_drop_nth is_send _ _ _ Hn) as Hc; cbn in Hc; lia. }
  assert (Hfail : forall x ts,
            w' = {| page := failed P x (page w); tasks := ts |} ->
            inputValue (page w') = inputValue (page w)
            /\ inputHeight (page w') = inputHeight (page w)
            /\ isComposing (page w') = isComposing (page w)
            /\ currentSessionId (page w') = currentSessionId (page w)
            /\ requests (page w') = requests (page w)
            /\ (isWaitingResponse (page w') = false ->
                sendDisabled (page w')
                = negb (0 <? String.length (trim (inputValue (page w))))%nat)).
  { intros x ts E. rewrite E. repeat (split; [reflexivity|]).
    intros _. cbn -[Nat.ltb trim]. apply orb_false_r. }
  destruct (settles_send_task P w e Hg Hs)
    as [(i & o & -> & Hn)|(i & o & -> & Hn)].
  - pose proof (settle_send_fetch P w i o Hn) as E. fold w' in E.
    destruct o as [[[|]]|x]; cbn [ok] in E; try (eapply Hfail; exact E).
    rewrite E. cbn [page]. repeat (split; [reflexivity|]). congruence.
  - pose proof (settle_send_json P w i o Hn) as E. fold w' in E.
    rewrite E. cbn [page].
    destruct (send_result_frame P o (page w)) as (A & B & C & D & F & G & _).
    repeat (split; [assumption|]). now intros _.
Qed.

(** X18 on the example page: the user has typed the next question when the
    request fails. *)
Lemma send_replies_leave_the_input_witness :
  let w := steps demo [Click_sendBtn; InputEvent "and then?"] asked in
  let w' := step demo (FetchSettled 1 (Val {| ok := false |})) w in
  inputValue (page w') = "and then?"
  /\ sendDisabled (page w) = true
  /\ sendDisabled (page w') = false.
Proof.
  assert (Hr : reachable demo (boot demo (loaded [WelcomeMessage] "" true 24 0))
                 (steps demo [Click_sendBtn; InputEvent "and then?"] asked)).
  { apply reachable_steps. apply reach_step. apply reach_start. }
  destruct (send_replies_leave_the_input demo _ _ _ _ _ _
              (FetchSettled 1 (Val {| ok := false |})) Hr eq_refl)
    as (A & _ & _ & _ & _ & B).
  split; [exact A|]. split; [reflexivity | exact (B eq_refl)].
Defined.
